(** * prawcore.sessions: retry strategy and request pipeline

    A shallow embedding of [prawcore/sessions.py]: the immutable
    [FiniteRetryStrategy], the status tables of [Session], the parameter
    normalisation of [Session.request] and the retry loop
    [Session._request_with_retries].

    Conventions.
    - Python [int] is [Z]; [str] is [string] (compared bytewise, which on
      UTF-8 text is the code point order Python uses).
    - Python [float] is IEEE 754 binary64: the delays are values of the
      standard library's [spec_float], with its operations at precision 53
      and exponent bound 1024, rounding to nearest even. The time-out is
      only passed on, never computed with; it is a rational [Q].
    - [random.random()] is a stream of draws handed to the code one at a
      time; the transport, the authorizer and the rate limiter are the
      collaborators of the session and are parameters of the model.
    - Mutable Python objects live in a store indexed by locations, so that
      aliasing between the caller's objects and the session's copies is
      visible. *)

From Stdlib Require Import ZArith QArith Lia Floats.SpecFloat.
From stdpp Require Import base option list gmap strings sorting.

Local Open Scope Z_scope.

(** ** HTTP status codes

    [requests.status_codes.codes], restricted to the names the module uses;
    [codes["name"]] is written [codes.name]. The numbers are those of the
    [requests] registry (the IANA assignments). *)
Module codes.
Definition ok : Z := 200.
Definition created : Z := 201.
Definition accepted : Z := 202.
Definition no_content : Z := 204.
Definition moved_permanently : Z := 301.
Definition found : Z := 302.
Definition bad_request : Z := 400.
Definition unauthorized : Z := 401.
Definition forbidden : Z := 403.
Definition not_found : Z := 404.
Definition request_timeout : Z := 408.
Definition conflict : Z := 409.
Definition request_entity_too_large : Z := 413.
Definition request_uri_too_large : Z := 414.
Definition media_type : Z := 415.
Definition too_many_requests : Z := 429.
Definition unavailable_for_legal_reasons : Z := 451.
Definition internal_server_error : Z := 500.
Definition bad_gateway : Z := 502.
Definition service_unavailable : Z := 503.
Definition gateway_timeout : Z := 504.
End codes.

(** ** Python floats *)

(** [float]: binary64. [of_int] is the conversion Python applies to an
    [int] operand of mixed arithmetic; it is used on the small constants of
    the module only. *)
Module float.
Definition prec : Z := 53.
Definition emax : Z := 1024.
Definition of_int (n : Z) : spec_float :=
  binary_normalize prec emax n 0 false.
Definition add : spec_float → spec_float → spec_float := SFadd prec emax.
Definition mul : spec_float → spec_float → spec_float := SFmul prec emax.
(** [x <= y] and [x < y]; both are false on a NaN. *)
Definition le (x y : spec_float) : Prop := SFleb x y = true.
Definition lt (x y : spec_float) : Prop := SFltb x y = true.
(** The values that binary64 has: mantissa and exponent in normal form. *)
Definition is_float (x : spec_float) : Prop :=
  valid_binary prec emax x = true.
(** What [random.random()] yields: a float of [0.0, 1.0). *)
Definition unit_interval (u : spec_float) : Prop :=
  is_float u ∧ le (of_int 0) u ∧ lt u (of_int 1).
(** 0.5, and the largest float below 1.0, which is [1 - 2^-53]. *)
Definition half : spec_float := S754_finite false 4503599627370496 (-53).
Definition max_draw : spec_float := S754_finite false 9007199254740991 (-53).
End float.

(** ** RetryStrategy *)

(** The abstract class [RetryStrategy]: one abstract method. The argument
    [random_random] is the value the next call of [random.random()] yields;
    an implementation that returns [None] has not drawn it. *)
Class RetryStrategy (S : Type) := {
  _sleep_seconds : S → spec_float → option spec_float
}.

(** [class FiniteRetryStrategy(RetryStrategy)]; [__init__] stores [retries]. *)
Record FiniteRetryStrategy := { _retries : Z }.

Definition FiniteRetryStrategy__init__ (retries : Z) : FiniteRetryStrategy :=
  {| _retries := retries |}.

(** The default of [__init__]'s [retries] parameter. *)
Definition default_retries : Z := 3.

Definition FiniteRetryStrategy_sleep_seconds
    (self : FiniteRetryStrategy) (random_random : spec_float)
  : option spec_float :=
  if _retries self <? 3 then
    let base : Z := if _retries self =? 2 then 0 else 2 in
    Some (float.add (float.of_int base)
            (float.mul (float.of_int 2) random_random))
  else None.

#[global] Instance FiniteRetryStrategy_RetryStrategy :
  RetryStrategy FiniteRetryStrategy :=
  {| _sleep_seconds := FiniteRetryStrategy_sleep_seconds |}.

Definition consume_available_retry
    (self : FiniteRetryStrategy) : FiniteRetryStrategy :=
  FiniteRetryStrategy__init__ (_retries self - 1).

Definition should_retry_on_failure (self : FiniteRetryStrategy) : bool :=
  bool_decide (_retries self > 1).

(** ** Python values, objects and the store *)

(** Immutable values: what is stored under the keys of a mapping and what
    [response.json()] decodes to. *)
#[warnings="-register-all"]
Inductive pyval :=
| PNone
| PBool (b : bool)
| PInt (z : Z)
| PStr (s : string)
| PList (l : list pyval)
| PDict (items : list (string * pyval)).

Abbreviation loc := positive.

(** Mutable objects, each with its own identity (a location). *)
Inductive pyobj :=
| ODict (d : gmap string pyval)
| OFiniteRetryStrategy (s : FiniteRetryStrategy).

(** Creating an object: a location not in use, bound to the object. *)
Definition alloc (o : pyobj) (h : gmap loc pyobj) : loc * gmap loc pyobj :=
  let l := fresh (dom h) in (l, <[l := o]> h).

(** [FiniteRetryStrategy] instances as objects of the store. *)
Module Obj.
(** [FiniteRetryStrategy(retries)]. *)
Definition new (retries : Z) (h : gmap loc pyobj) : loc * gmap loc pyobj :=
  alloc (OFiniteRetryStrategy (FiniteRetryStrategy__init__ retries)) h.

(** [self.consume_available_retry()]: [type(self)(self._retries - 1)].
    [None] when [self] is not a strategy of the store. *)
Definition consume_available_retry (self : loc) (h : gmap loc pyobj)
  : option (loc * gmap loc pyobj) :=
  match h !! self with
  | Some (OFiniteRetryStrategy s) => Some (new (_retries s - 1) h)
  | _ => None
  end.

(** Reading [self._retries]. *)
Definition retries (self : loc) (h : gmap loc pyobj) : option Z :=
  match h !! self with
  | Some (OFiniteRetryStrategy s) => Some (_retries s)
  | _ => None
  end.
End Obj.

(** The dynamic shapes of the [data] argument and of what is passed on as
    [data]: absent, a mapping, the sorted item list, bytes, a file-like
    object. *)
Inductive pydata :=
| DataNone
| DataDict (l : loc)
| DataItems (items : list (string * pyval))
| DataBytes (b : string)
| DataFile (fileno : nat).

(** The [json] argument: absent, a mapping, any other value. *)
Inductive pyjson :=
| JsonNone
| JsonDict (l : loc)
| JsonValue (v : pyval).

(** [sorted(data.items())]: tuples are compared on their first component
    first, and the keys of a mapping are pairwise distinct, so the values
    are never compared. *)
Definition item_le (x y : string * pyval) : Prop := String.le x.1 y.1.

#[global] Instance item_le_dec : RelDecision item_le.
Proof. intros x y. unfold item_le. apply _. Defined.

#[global] Instance item_le_transitive : Transitive item_le.
Proof. intros x y z. unfold item_le. apply transitivity. Qed.

#[global] Instance item_le_total : Total item_le.
Proof. intros x y. unfold item_le. apply total, _. Qed.

Definition sorted (items : list (string * pyval)) : list (string * pyval) :=
  merge_sort item_le items.

(** ** Requests, responses, exceptions *)

(** What [Requestor.request] is called with. *)
Record Request := {
  req_method : string;
  req_url : string;
  req_allow_redirects : bool;
  req_data : pydata;
  req_files : option loc;
  req_json : pyjson;
  req_params : loc;
  req_timeout : Q;
  req_headers : gmap string string
}.

(** [requests.models.Response] as the session reads it: [response_json]
    is the result of [response.json()], [None] when it raises
    [ValueError]. *)
Record Response := {
  status_code : Z;
  headers : gmap string string;
  content : string;
  response_json : option pyval
}.

(** The cause wrapped by a [RequestException]; an instance of a subclass
    counts as its base class. *)
Inductive OriginalException :=
| ChunkedEncodingError
| ConnectionError
| ReadTimeout
| OtherException (name : string).

#[global] Instance OriginalException_eq_dec : EqDecision OriginalException.
Proof. solve_decision. Defined.

(** The values of [Session.STATUS_EXCEPTIONS]. *)
Inductive StatusExceptionClass :=
| ServerError
| BadRequest
| Conflict
| Redirect
| authorization_error_class
| SpecialError
| NotFound
| TooLarge
| URITooLong
| TooManyRequests
| UnavailableForLegalReasons.

Inductive exn :=
| StatusException (cls : StatusExceptionClass) (response : Response)
| BadJSON (response : Response)
| AssertionError (status : Z)
| RequestException (original_exception : OriginalException)
| AttributeError
| TypeError
| OtherError (name : string)
| FuelExhausted.

Inductive result (A : Type) :=
| Return (a : A)
| Raise (e : exn).
Arguments Return {A} a.
Arguments Raise {A} e.

(** What the session does to its collaborators, in order. *)
Inductive Event :=
| EvSleep (seconds : spec_float)
| EvClearAccessToken
| EvRefresh
| EvRequest (req : Request)
| EvResponse (response : Response)
| EvRequestException (original_exception : OriginalException).

(** ** The tables of [Session] *)

Definition RETRY_EXCEPTIONS : list OriginalException :=
  [ChunkedEncodingError; ConnectionError; ReadTimeout].

Definition isinstance (e : OriginalException)
    (classes : list OriginalException) : bool :=
  bool_decide (e ∈ classes).

Definition RETRY_STATUSES : gset Z :=
  {[ 520; 522;
     codes.bad_gateway;
     codes.gateway_timeout;
     codes.internal_server_error;
     codes.request_timeout;
     codes.service_unavailable ]}.

Definition STATUS_EXCEPTIONS : gmap Z StatusExceptionClass :=
  list_to_map [
    (codes.bad_gateway, ServerError);
    (codes.bad_request, BadRequest);
    (codes.conflict, Conflict);
    (codes.found, Redirect);
    (codes.forbidden, authorization_error_class);
    (codes.gateway_timeout, ServerError);
    (codes.internal_server_error, ServerError);
    (codes.media_type, SpecialError);
    (codes.moved_permanently, Redirect);
    (codes.not_found, NotFound);
    (codes.request_entity_too_large, TooLarge);
    (codes.request_uri_too_large, URITooLong);
    (codes.service_unavailable, ServerError);
    (codes.too_many_requests, TooManyRequests);
    (codes.unauthorized, authorization_error_class);
    (codes.unavailable_for_legal_reasons, UnavailableForLegalReasons);
    (520, ServerError);
    (522, ServerError)
  ].

Definition SUCCESS_STATUSES : gset Z :=
  {[ codes.accepted; codes.created; codes.ok ]}.

(** ** Collaborators *)

(** Modelled from the spec: the Authorizer collaborator ([prawcore/auth.py]
    is not among the sources). The session consumes it through
    [is_valid], [refresh] (present only on refresh-capable variants, and
    raising when the grant cannot be renewed), [_clear_access_token] and
    the attribute [access_token]. Clearing the cached token leaves the
    authorizer invalid, which is what makes the next attempt refresh. *)
Class Authorizer (A : Type) := {
  is_valid : A → bool;
  has_refresh : bool;
  refresh : A → exn + A;
  _clear_access_token : A → A;
  access_token : A → option string;
  clear_access_token_invalid : ∀ a, is_valid (_clear_access_token a) = false
}.
Arguments has_refresh A {_}.

(** Modelled from the spec: the transport collaborator
    ([prawcore/requestor.py] is not among the sources). [Requestor.request]
    answers its [n]-th call, given the store and the request, with a
    response, or raises [RequestException] around an original cause;
    [oauth_url] is the base the request path is resolved against. The
    transport reads the store and does not write to it. *)
Class Requestor := {
  transport : nat → gmap loc pyobj → Request → OriginalException + Response;
  oauth_url : string
}.

(** The library functions the module calls: the [n]-th value of
    [random.random()], and [urllib.parse.urljoin]. *)
Class Runtime := {
  random_random : nat → spec_float;
  urljoin : string → string → string
}.

(** ** The state of the world and the monad of effects *)

Record World (Auth : Type) := {
  heap : gmap loc pyobj;
  authorizer : Auth;
  calls : nat;
  draws : nat;
  trace : list Event
}.
Arguments heap {Auth} w.
Arguments authorizer {Auth} w.
Arguments calls {Auth} w.
Arguments draws {Auth} w.
Arguments trace {Auth} w.

Section Session.
Context {Auth : Type} `{!Authorizer Auth} `{!Requestor} `{!Runtime}.

Definition Py (A : Type) : Type := World Auth → result A * World Auth.

#[global] Instance Py_ret : MRet Py := λ A a w, (Return a, w).

#[global] Instance Py_bind : MBind Py := λ A B f m w,
  match m w with
  | (Return a, w') => f a w'
  | (Raise e, w') => (Raise e, w')
  end.

Definition raise {A} (e : exn) : Py A := λ w, (Raise e, w).

(** [try: m except Exception as e: handler(e)]. *)
Definition try_except {A} (m : Py A) (handler : exn → Py A) : Py A := λ w,
  match m w with
  | (Return a, w') => (Return a, w')
  | (Raise e, w') => handler e w'
  end.

Definition emit (evs : list Event) (w : World Auth) : World Auth :=
  {| heap := heap w; authorizer := authorizer w; calls := calls w;
     draws := draws w; trace := trace w ++ evs |}.

Definition set_heap (h : gmap loc pyobj) (w : World Auth) : World Auth :=
  {| heap := h; authorizer := authorizer w; calls := calls w;
     draws := draws w; trace := trace w |}.

Definition set_authorizer (a : Auth) (w : World Auth) : World Auth :=
  {| heap := heap w; authorizer := a; calls := calls w;
     draws := draws w; trace := trace w |}.

Definition next_call (w : World Auth) : World Auth :=
  {| heap := heap w; authorizer := authorizer w; calls := S (calls w);
     draws := draws w; trace := trace w |}.

Definition next_draw (w : World Auth) : World Auth :=
  {| heap := heap w; authorizer := authorizer w; calls := calls w;
     draws := S (draws w); trace := trace w |}.

(** *** Operations on the store *)

(** [copy.deepcopy(x)] for an object [x]: a new object with the same
    contents. The values under the keys are immutable, so the copy shares
    nothing mutable with the original. *)
Definition deepcopy (l : loc) : Py loc := λ w,
  match heap w !! l with
  | Some o => let '(l', h) := alloc o (heap w) in (Return l', set_heap h w)
  | None => (Raise TypeError, w)
  end.

(** The dict display [{}]. *)
Definition new_dict : Py loc := λ w,
  let '(l, h) := alloc (ODict ∅) (heap w) in (Return l, set_heap h w).

(** Truth value of a mapping: it is not empty. *)
Definition dict_bool (l : loc) : Py bool := λ w,
  match heap w !! l with
  | Some (ODict d) => (Return (bool_decide (d ≠ ∅)), w)
  | _ => (Raise TypeError, w)
  end.

(** [d[key] = value]. *)
Definition setitem (l : loc) (key : string) (value : pyval) : Py unit := λ w,
  match heap w !! l with
  | Some (ODict d) =>
      (Return (), set_heap (<[l := ODict (<[key := value]> d)]> (heap w)) w)
  | _ => (Raise TypeError, w)
  end.

(** [d.items()]. *)
Definition dict_items (l : loc) : Py (list (string * pyval)) := λ w,
  match heap w !! l with
  | Some (ODict d) => (Return (map_to_list d), w)
  | _ => (Raise TypeError, w)
  end.

(** *** RetryStrategy.sleep *)

(** [sleep]: the delay, when there is one, is drawn, logged and slept. *)
Definition sleep {S} `{!RetryStrategy S} (self : S) : Py unit := λ w,
  let sleep_seconds := _sleep_seconds self (random_random (draws w)) in
  match sleep_seconds with
  | Some seconds => (Return (), emit [EvSleep seconds] (next_draw w))
  | None => (Return (), w)
  end.

(** *** Session *)

(** Reading [self._authorizer]. *)
Definition get_authorizer : Py Auth := λ w, (Return (authorizer w), w).

Definition authorizer_refresh : Py unit := λ w,
  match refresh (authorizer w) with
  | inr a => (Return (), emit [EvRefresh] (set_authorizer a w))
  | inl e => (Raise e, emit [EvRefresh] w)
  end.

Definition authorizer_clear_access_token : Py unit := λ w,
  (Return (),
   emit [EvClearAccessToken]
     (set_authorizer (_clear_access_token (authorizer w)) w)).

(** The f-string [f"bearer {access_token}"]. *)
Definition bearer (token : option string) : string :=
  ("bearer " +:+ default "None" token)%string.

Definition _set_header_callback : Py (gmap string string) :=
  a ← get_authorizer;
  (if negb (is_valid a) && has_refresh Auth
   then authorizer_refresh else mret ());;
  a ← get_authorizer;
  mret {[ "Authorization"%string := bearer (access_token a) ]}.

(** [self._requestor.request]: one call of the transport. *)
Definition requestor_request (req : Request) : Py Response := λ w,
  match transport (calls w) (heap w) req with
  | inr response =>
      (Return response, emit [EvRequest req; EvResponse response] (next_call w))
  | inl original_exception =>
      (Raise (RequestException original_exception),
       emit [EvRequest req; EvRequestException original_exception]
         (next_call w))
  end.

(** Modelled from the spec: [RateLimiter.call] ([prawcore/rate_limit.py]
    is not among the sources) obtains the headers from the callback and
    performs one call of the transport with them. The throttling delay it
    applies first is its own policy and is left out: [EvSleep] records the
    delays of [RetryStrategy.sleep], and no others. *)
Definition rate_limiter_call
    (request_function : Request → Py Response)
    (set_header_callback : Py (gmap string string))
    (method url : string) (allow_redirects : bool)
    (data : pydata) (files : option loc) (json : pyjson) (params : loc)
    (timeout : Q) : Py Response :=
  headers ← set_header_callback;
  request_function
    {| req_method := method; req_url := url;
       req_allow_redirects := allow_redirects;
       req_data := data; req_files := files; req_json := json;
       req_params := params; req_timeout := timeout;
       req_headers := headers |}.

Definition _make_request
    (data : pydata) (files : option loc) (json : pyjson)
    (method : string) (params : loc)
    (retry_strategy_state : FiniteRetryStrategy)
    (timeout : Q) (url : string)
  : Py (option Response * option OriginalException) :=
  try_except
    (response ← rate_limiter_call requestor_request _set_header_callback
                   method url false data files json params timeout;
     mret (Some response, None))
    (λ exception,
       match exception with
       | RequestException original_exception =>
           if negb (should_retry_on_failure retry_strategy_state)
              || negb (isinstance original_exception RETRY_EXCEPTIONS)
           then raise exception
           else mret (None, Some original_exception)
       | _ => raise exception
       end).

(** [_do_retry]; its first argument stands for
    [self._request_with_retries]. The status it computes is only
    logged. *)
Definition _do_retry
    (self_request_with_retries :
       pydata → option loc → pyjson → string → loc → Q → string →
       option FiniteRetryStrategy → Py pyval)
    (data : pydata) (files : option loc) (json : pyjson)
    (method : string) (params : loc) (response : option Response)
    (retry_strategy_state : FiniteRetryStrategy)
    (saved_exception : option OriginalException)
    (timeout : Q) (url : string) : Py pyval :=
  self_request_with_retries data files json method params timeout url
    (Some (consume_available_retry retry_strategy_state)).

(** [_request_with_retries], with the depth of the recursion bounded by
    [fuel]. The calls of [_log_request] and [log.debug] only log and are
    left out; [assert] statements are executed. *)
Fixpoint _request_with_retries_fuel (fuel : nat)
    (data : pydata) (files : option loc) (json : pyjson)
    (method : string) (params : loc) (timeout : Q) (url : string)
    (retry_strategy_state : option FiniteRetryStrategy) : Py pyval :=
  match fuel with
  | O => raise FuelExhausted
  | S fuel =>
    let retry_strategy_state :=
      default (FiniteRetryStrategy__init__ default_retries)
        retry_strategy_state in
    sleep retry_strategy_state;;
    '(response, saved_exception) ←
      _make_request data files json method params retry_strategy_state
        timeout url;
    do_retry ←
      match response with
      | Some r =>
          if bool_decide (status_code r = codes.unauthorized) then
            authorizer_clear_access_token;;
            mret (has_refresh Auth)
          else mret false
      | None => mret false
      end;
    if should_retry_on_failure retry_strategy_state
       && (do_retry
           || match response with
              | None => true
              | Some r => bool_decide (status_code r ∈ RETRY_STATUSES)
              end)
    then
      _do_retry (_request_with_retries_fuel fuel)
        data files json method params response retry_strategy_state
        saved_exception timeout url
    else
      match response with
      | None => raise AttributeError
      | Some r =>
          match STATUS_EXCEPTIONS !! status_code r with
          | Some cls => raise (StatusException cls r)
          | None =>
              if bool_decide (status_code r = codes.no_content) then
                mret PNone
              else if negb (bool_decide (status_code r ∈ SUCCESS_STATUSES))
              then raise (AssertionError (status_code r))
              else if bool_decide
                        (headers r !! "content-length"%string
                         = Some "0"%string)
              then mret (PStr EmptyString)
              else
                match response_json r with
                | Some decoded => mret decoded
                | None => raise (BadJSON r)
                end
          end
      end
  end.

(** One level of recursion for the first attempt and one for each retry
    the strategy can still grant. *)
Definition attempts_of (retry_strategy_state : option FiniteRetryStrategy)
  : nat :=
  S (Z.to_nat
       (_retries (default (FiniteRetryStrategy__init__ default_retries)
                    retry_strategy_state) - 1)).

Definition _request_with_retries
    (data : pydata) (files : option loc) (json : pyjson)
    (method : string) (params : loc) (timeout : Q) (url : string)
    (retry_strategy_state : option FiniteRetryStrategy) : Py pyval :=
  _request_with_retries_fuel (attempts_of retry_strategy_state)
    data files json method params timeout url retry_strategy_state.

(** [Session.request]. *)
Definition request (method path : string)
    (data : pydata) (files : option loc) (json : pyjson)
    (params : option loc) (timeout : Q) : Py pyval :=
  params ←
    match params return Py loc with
    | Some l =>
        copy ← deepcopy l;
        nonempty ← dict_bool copy;
        if (nonempty : bool) then mret copy else new_dict
    | None => new_dict
    end;
  setitem params "raw_json" (PInt 1);;
  data ←
    match data return Py pydata with
    | DataDict l =>
        data ← deepcopy l;
        setitem data "api_type" (PStr "json");;
        items ← dict_items data;
        mret (DataItems (sorted items))
    | _ => mret data
    end;
  json ←
    match json return Py pyjson with
    | JsonDict l =>
        json ← deepcopy l;
        setitem json "api_type" (PStr "json");;
        mret (JsonDict json)
    | _ => mret json
    end;
  let url := urljoin oauth_url path in
  _request_with_retries data files json method params timeout url None.
End Session.

(** Readings of a trace. *)
Definition responses (evs : list Event) : list Response :=
  omap (λ e, match e with EvResponse r => Some r | _ => None end) evs.

Definition requests (evs : list Event) : list Request :=
  omap (λ e, match e with EvRequest req => Some req | _ => None end) evs.

Definition sleeps (evs : list Event) : list spec_float :=
  omap (λ e, match e with EvSleep seconds => Some seconds | _ => None end) evs.

Definition clears (evs : list Event) : nat :=
  length (omap (λ e, match e with
                     | EvClearAccessToken => Some ()
                     | _ => None
                     end) evs).

Definition refreshes (evs : list Event) : nat :=
  length (omap (λ e, match e with EvRefresh => Some () | _ => None end) evs).

Definition unauthorized (evs : list Event) : nat :=
  length (filter (λ r, status_code r = codes.unauthorized) (responses evs)).

(** ** Parts of [_request_with_retries], named for the statements below *)

Section Parts.
Context {Auth : Type} `{!Authorizer Auth} `{!Requestor} `{!Runtime}.

(** The first statements of the body: sleep, then make the request. *)
Definition attempt
    (data : pydata) (files : option loc) (json : pyjson)
    (method : string) (params : loc) (timeout : Q) (url : string)
    (retry_strategy_state : FiniteRetryStrategy)
  : Py (option Response * option OriginalException) :=
  sleep retry_strategy_state;;
  _make_request data files json method params retry_strategy_state
    timeout url.

(** The world once a response has been looked at: a 401 has had the
    cached access token cleared. *)
Definition after_response (r : Response) (w : World Auth) : World Auth :=
  if bool_decide (status_code r = codes.unauthorized)
  then emit [EvClearAccessToken]
         (set_authorizer (_clear_access_token (authorizer w)) w)
  else w.

(** The disjunction guarding [_do_retry], for a response. *)
Definition wants_retry (r : Response) : bool :=
  (bool_decide (status_code r = codes.unauthorized) && has_refresh Auth)
  || bool_decide (status_code r ∈ RETRY_STATUSES).

(** The statements after the retry decision: the outcome for a response
    that is not retried. *)
Definition final_classification (r : Response) : result pyval :=
  match STATUS_EXCEPTIONS !! status_code r with
  | Some cls => Raise (StatusException cls r)
  | None =>
      if bool_decide (status_code r = codes.no_content) then Return PNone
      else if negb (bool_decide (status_code r ∈ SUCCESS_STATUSES))
      then Raise (AssertionError (status_code r))
      else if bool_decide
                (headers r !! "content-length"%string = Some "0"%string)
      then Return (PStr EmptyString)
      else
        match response_json r with
        | Some decoded => Return decoded
        | None => Raise (BadJSON r)
        end
  end.

(** A triple for computations: from a world satisfying [P], a normal
    exit satisfies [Q] and an exceptional exit satisfies [E]. *)
Definition hoare {A} (P : World Auth → Prop) (m : Py A)
    (Q : A → World Auth → Prop) (E : World Auth → Prop) : Prop :=
  ∀ w, P w →
    match m w with
    | (Return a, w') => Q a w'
    | (Raise _, w') => E w'
    end.

(** What [request] passes on as [data], given the argument [data] and
    the caller's store [hc]. *)
Definition normalized_data (hc : gmap loc pyobj) (data data' : pydata)
  : Prop :=
  match data with
  | DataDict l =>
      ∀ d, hc !! l = Some (ODict d) →
           data' = DataItems
                     (sorted (map_to_list
                                (<["api_type"%string := PStr "json"]> d)))
  | _ => data' = data
  end.

(** The caller's store [hc] is still there and nothing was sent. *)
Definition untouched (hc : gmap loc pyobj) (tr0 : list Event)
    (w : World Auth) : Prop :=
  hc ⊆ heap w ∧ trace w = tr0.

(** [c] is an object made during the call, holding [o]. *)
Definition own (hc : gmap loc pyobj) (c : loc) (o : pyobj)
    (w : World Auth) : Prop :=
  hc !! c = None ∧ heap w !! c = Some o.

(** The caller's store [hc] is still there, and every request sent since
    the trace [tr0] carries the normalised form of [data]. *)
Definition sent_as (hc : gmap loc pyobj) (tr0 : list Event)
    (data : pydata) (w : World Auth) : Prop :=
  hc ⊆ heap w
  ∧ ∃ evs,
      trace w = tr0 ++ evs
      ∧ Forall (λ req, normalized_data hc data (req_data req))
          (requests evs).
End Parts.

(** ** Tactics *)

(** Closes a goal that compares the last statements of the body with
    [final_classification]. *)
Ltac classified :=
  unfold final_classification, raise;
  repeat first [reflexivity | case_match].

(** Projections of an updated world. *)
Ltac world_simpl :=
  cbn [heap authorizer calls draws trace
       emit set_heap set_authorizer next_call next_draw].

(** Closes the branches of a lemma on the effects of a computation: the
    new events are read off the final world. *)
Ltac effects_done :=
  intros; simplify_eq;
  (split; [reflexivity|]);
  (eexists; split; [world_simpl; rewrite <- ?app_assoc; reflexivity|]);
  split_and!; try reflexivity;
  try (cbn; repeat constructor);
  try match goal with
      | Hh : negb _ || _ = false |- _ =>
          apply orb_false_elim in Hh as [Hh%negb_false_iff _]; exact Hh
      end.

(** ** Concrete collaborators

    A small world on which the definitions above can be run. *)
Module Sample.
(** An authorizer whose state is its cached token: valid while a token
    is cached; refreshing, where offered, caches a new token. *)
Definition token_authorizer (can_refresh : bool)
  : Authorizer (option string) :=
  {| is_valid a := bool_decide (is_Some a);
     has_refresh := can_refresh;
     refresh _ := inr (Some "renewed"%string);
     _clear_access_token _ := None;
     access_token a := a;
     clear_access_token_invalid _ := eq_refl |}.

Definition response_of (status : Z) (content_length : option string)
    (body : string) (decoded : option pyval) : Response :=
  {| status_code := status;
     headers :=
       match content_length with
       | Some n => {[ "content-length"%string := n ]}
       | None => ∅
       end;
     content := body;
     response_json := decoded |}.

(** A plain response of the given status: a JSON object [{}] as body. *)
Definition plain (status : Z) : Response :=
  response_of status (Some "2"%string) "{}" (Some (PDict [])).

(** A transport that answers its calls from a script, and repeats the
    last answer once the script is used up. *)
Definition scripted (first : OriginalException + Response)
    (rest : list (OriginalException + Response)) : Requestor :=
  {| transport n _ _ := nth n (first :: rest) (List.last rest first);
     oauth_url := "https://oauth.reddit.com" |}.

Definition always (status : Z) : Requestor := scripted (inr (plain status)) [].

Definition always_200 : Requestor := always 200.
Definition always_401 : Requestor := always 401.
Definition always_408 : Requestor := always 408.
Definition always_420 : Requestor := always 420.
Definition always_429 : Requestor := always 429.

(** A 200 response with an empty body and no content-length header, as
    sent with chunked transfer encoding; an empty body is not JSON. *)
Definition empty_chunked : Response := response_of 200 None EmptyString None.

Definition always_empty_chunked : Requestor :=
  scripted (inr empty_chunked) [].

Definition refreshing : Authorizer (option string) := token_authorizer true.
Definition fixed : Authorizer (option string) := token_authorizer false.

Definition runtime : Runtime :=
  {| random_random _ := float.half;
     urljoin base path := (base +:+ path)%string |}.

(** The caller's objects: a [params] mapping at [1], a [data] mapping at
    [2], a [json] mapping at [3]. *)
Definition caller_heap : gmap loc pyobj :=
  {[ 1%positive := ODict {[ "limit"%string := PInt 100 ]};
     2%positive := ODict {[ "b"%string := PInt 2; "a"%string := PInt 1 ]};
     3%positive := ODict {[ "text"%string := PStr "hello" ]} ]}.

Definition world (token : option string) : World (option string) :=
  {| heap := caller_heap; authorizer := token; calls := 0; draws := 0;
     trace := [] |}.

(** A caller holding a token. *)
Definition start : World (option string) := world (Some "token"%string).

Definition me : string := "https://oauth.reddit.com/api/v1/me".
End Sample.


(** ** Parts of [request], named for the statements below *)

Section RequestParts.
Context {Auth : Type} `{!Authorizer Auth} `{!Requestor} `{!Runtime}.

(** The statements of [request] before the call of
    [_request_with_retries]: they yield the [params], [data] and [json]
    that are passed on. *)
Definition normalise (data : pydata) (json : pyjson) (params : option loc)
  : Py (Auth := Auth) (loc * pydata * pyjson) :=
  params ←
    match params return Py (Auth := Auth) loc with
    | Some l =>
        copy ← deepcopy l;
        nonempty ← dict_bool copy;
        if (nonempty : bool) then mret copy else new_dict
    | None => new_dict
    end;
  setitem params "raw_json" (PInt 1);;
  data ←
    match data return Py (Auth := Auth) pydata with
    | DataDict l =>
        data ← deepcopy l;
        setitem data "api_type" (PStr "json");;
        items ← dict_items data;
        mret (DataItems (sorted items))
    | _ => mret data
    end;
  json ←
    match json return Py (Auth := Auth) pyjson with
    | JsonDict l =>
        json ← deepcopy l;
        setitem json "api_type" (PStr "json");;
        mret (JsonDict json)
    | _ => mret json
    end;
  mret (params, data, json).

(** [w'] differs from [w] in its store only, and there by objects made
    since. *)
Definition store_grown (w w' : World Auth) : Prop :=
  heap w ⊆ heap w'
  ∧ authorizer w' = authorizer w ∧ calls w' = calls w
  ∧ draws w' = draws w ∧ trace w' = trace w.

(** The request [req] is the call
    [request(method, url, allow_redirects=False, data=data, files=files,
    json=json, params=params, timeout=timeout)] with the bearer header of
    some state of the authorizer. *)
Definition sent_with (data : pydata) (files : option loc) (json : pyjson)
    (method : string) (params : loc) (timeout : Q) (url : string)
    (req : Request) : Prop :=
  req_method req = method ∧ req_url req = url
  ∧ req_allow_redirects req = false
  ∧ req_data req = data ∧ req_files req = files ∧ req_json req = json
  ∧ req_params req = params ∧ req_timeout req = timeout
  ∧ ∃ a : Auth,
      req_headers req = {[ "Authorization"%string := bearer (access_token a) ]}.
End RequestParts.

(** * Properties *)

(** ** Binary64 arithmetic of the delays *)

Section FloatFacts.
Import float.

Lemma digits2_pos_size (p : positive) : digits2_pos p = Pos.size p.
Proof. induction p as [p IH|p IH|]; simpl; rewrite ?IH; reflexivity. Qed.

Lemma digits2_log2 (p : positive) :
  Z.pos (digits2_pos p) = Z.log2 (Z.pos p) + 1.
Proof.
  destruct p as [p|p|]; simpl; rewrite ?digits2_pos_size, ?Pos2Z.inj_succ;
    try reflexivity; lia.
Qed.

Lemma digits2_bounds (p : positive) :
  2 ^ (Z.pos (digits2_pos p) - 1) ≤ Z.pos p < 2 ^ Z.pos (digits2_pos p).
Proof.
  rewrite digits2_log2.
  replace (Z.log2 (Z.pos p) + 1 - 1) with (Z.log2 (Z.pos p)) by lia.
  apply (Z.log2_spec (Z.pos p)). lia.
Qed.

Lemma digits2_unique (p : positive) (k : Z) :
  0 < k → 2 ^ (k - 1) ≤ Z.pos p < 2 ^ k → Z.pos (digits2_pos p) = k.
Proof.
  intros Hk Hp. rewrite digits2_log2.
  rewrite (Z.log2_unique (Z.pos p) (k - 1)); [lia | lia |].
  replace (Z.succ (k - 1)) with k by lia. exact Hp.
Qed.

Lemma shr_1_m (mrs : shr_record) :
  0 ≤ shr_m mrs → shr_m (shr_1 mrs) = shr_m mrs / 2.
Proof.
  rewrite <- Z.div2_div.
  destruct mrs as [[|[p|p|]|p] r s]; cbn; try reflexivity; lia.
Qed.

Lemma shr_m_iter (p : positive) :
  ∀ mrs, 0 ≤ shr_m mrs →
         shr_m (SpecFloat.iter_pos shr_1 p mrs) = shr_m mrs / 2 ^ Z.pos p.
Proof.
  assert (∀ q : positive, 0 < 2 ^ Z.pos q) as Hpow
    by (intros q; apply Z.pow_pos_nonneg; lia).
  induction p as [p IH|p IH|]; intros mrs Hm; cbn [SpecFloat.iter_pos].
  - assert (0 ≤ shr_m (shr_1 mrs)) as H1
      by (rewrite shr_1_m by done; apply Z.div_pos; lia).
    assert (0 ≤ shr_m (SpecFloat.iter_pos shr_1 p (shr_1 mrs))) as H2
      by (rewrite IH by done; apply Z.div_pos; [done | apply Hpow]).
    rewrite IH, IH, shr_1_m by done.
    pose proof (Hpow p).
    rewrite !Z.div_div by lia.
    replace (Z.pos p~1) with (1 + Z.pos p + Z.pos p) by lia.
    rewrite !Z.pow_add_r, Z.pow_1_r by lia. f_equal. ring.
  - assert (0 ≤ shr_m (SpecFloat.iter_pos shr_1 p mrs)) as H2
      by (rewrite IH by done; apply Z.div_pos; [done | apply Hpow]).
    rewrite IH, IH by done.
    pose proof (Hpow p).
    rewrite !Z.div_div by lia.
    replace (Z.pos p~0) with (Z.pos p + Z.pos p) by lia.
    rewrite Z.pow_add_r by lia. reflexivity.
  - rewrite shr_1_m by done. reflexivity.
Qed.

Lemma round_nearest_even_cases (m : Z) (l : location) :
  round_nearest_even m l = m ∨ round_nearest_even m l = m + 1.
Proof.
  destruct l as [|[]]; cbn [round_nearest_even]; try destruct (Z.even m); auto.
Qed.

Lemma pos_iter_xO (p d : positive) :
  Z.pos (Pos.iter xO p d) = Z.pos p * 2 ^ Z.pos d.
Proof.
  induction d as [|d IH] using Pos.peano_ind.
  - cbn. lia.
  - rewrite Pos.iter_succ, Pos2Z.inj_xO, IH, Pos2Z.inj_succ, Z.pow_succ_r by lia.
    lia.
Qed.

Lemma of_int_values :
  of_int 0 = S754_zero false
  ∧ of_int 1 = S754_finite false 4503599627370496 (-52)
  ∧ of_int 2 = S754_finite false 4503599627370496 (-51)
  ∧ of_int 4 = S754_finite false 4503599627370496 (-50).
Proof. split_and!; reflexivity. Qed.

Lemma SFltb_finite (m1 m2 : positive) (e1 e2 : Z) :
  SFltb (S754_finite false m1 e1) (S754_finite false m2 e2) = true →
  e1 < e2 ∨ (e1 = e2 ∧ Z.pos m1 < Z.pos m2).
Proof.
  unfold SFltb, SFcompare.
  change (Pos.compare_cont Eq m1 m2) with (Pos.compare m1 m2).
  destruct (Z.compare_spec e1 e2) as [->|He|He]; [| |discriminate].
  - destruct (Pos.compare_spec m1 m2) as [|Hm|]; try discriminate.
    intros _. right. split; [reflexivity|]. lia.
  - intros _. left. exact He.
Qed.

Lemma SFleb_finite (m1 m2 : positive) (e1 e2 : Z) :
  e1 < e2 ∨ (e1 = e2 ∧ Z.pos m1 ≤ Z.pos m2) →
  SFleb (S754_finite false m1 e1) (S754_finite false m2 e2) = true.
Proof.
  unfold SFleb, SFcompare.
  change (Pos.compare_cont Eq m1 m2) with (Pos.compare m1 m2).
  intros [He|[-> Hm]].
  - apply Z.compare_lt_iff in He. rewrite He. reflexivity.
  - rewrite Z.compare_refl.
    destruct (Pos.compare_spec m1 m2) as [|Hlt|Hgt]; try reflexivity. lia.
Qed.

Lemma SFltb_finite_intro (m1 m2 : positive) (e1 e2 : Z) :
  e1 < e2 →
  SFltb (S754_finite false m1 e1) (S754_finite false m2 e2) = true.
Proof.
  unfold SFltb, SFcompare. intros He%Z.compare_lt_iff. rewrite He. reflexivity.
Qed.

(** The binary64 values in [0,1). *)
Lemma unit_interval_cases (u : spec_float) :
  unit_interval u →
  (∃ s, u = S754_zero s)
  ∨ ∃ m e, u = S754_finite false m e
           ∧ -1074 ≤ e ≤ -53
           ∧ ((Z.pos (digits2_pos m) = 53)
              ∨ (e = -1074 ∧ Z.pos (digits2_pos m) < 53)).
Proof.
  intros (Hvalid & Hle & Hlt).
  destruct u as [s|s| |s m e].
  - left. eauto.
  - destruct s; discriminate.
  - discriminate.
  - right. destruct s; [discriminate|]. exists m, e. split; [reflexivity|].
    unfold is_float, valid_binary, bounded, canonical_mantissa, fexp,
      SpecFloat.emin, prec, emax in Hvalid.
    apply andb_prop in Hvalid as [Hcanon%Z.eqb_eq _].
    apply (SFltb_finite m 4503599627370496 e (-52)) in Hlt.
    destruct Hlt as [He|[-> Hm]]; [lia|].
    pose proof (digits2_bounds m) as Hd.
    assert (Z.pos (digits2_pos m) = 53) as Hd53 by lia.
    rewrite Hd53 in Hd. change (2 ^ (53 - 1)) with 4503599627370496 in Hd.
    lia.
Qed.

(** A mantissa that is a multiple of a power of two, shifted right by
    that many digits: nothing is lost and nothing is rounded. *)
Lemma binary_round_aux_exact (s : bool) (M : positive) (ex : Z)
    (k m' : positive) :
  fexp prec emax (Z.pos (digits2_pos M) + ex) - ex = Z.pos k →
  SpecFloat.iter_pos shr_1 k
    {| shr_m := Z.pos M; shr_r := false; shr_s := false |}
  = {| shr_m := Z.pos m'; shr_r := false; shr_s := false |} →
  fexp prec emax (Z.pos (digits2_pos m') + (ex + Z.pos k)) = ex + Z.pos k →
  ex + Z.pos k ≤ emax - prec →
  binary_round_aux prec emax s (Z.pos M) ex loc_Exact
  = S754_finite s m' (ex + Z.pos k).
Proof.
  intros Hshift Hiter Hcanon Hmax.
  unfold binary_round_aux, shr_fexp.
  cbn [Zdigits2 shr_record_of_loc]. rewrite Hshift.
  cbn [shr]. rewrite Hiter.
  cbn [shr_m loc_of_shr_record round_nearest_even Zdigits2 shr_record_of_loc].
  rewrite Hcanon, Z.sub_diag. cbn [shr shr_m].
  apply Z.leb_le in Hmax. rewrite Hmax. reflexivity.
Qed.

Lemma digits2_mul_pow2 (m : positive) :
  Z.pos (digits2_pos (4503599627370496 * m)) = Z.pos (digits2_pos m) + 52.
Proof.
  rewrite !digits2_log2, Pos2Z.inj_mul, Z.mul_comm.
  change (Z.pos 4503599627370496) with (2 ^ 52).
  rewrite Z.log2_mul_pow2 by lia. lia.
Qed.

(** Twice a value of [0,1): exact, and below 2. *)
Lemma mul_two (m : positive) (e : Z) :
  -1074 ≤ e ≤ -53 →
  Z.pos (digits2_pos m) = 53 ∨ (e = -1074 ∧ Z.pos (digits2_pos m) < 53) →
  ∃ m' e',
    mul (of_int 2) (S754_finite false m e) = S754_finite false m' e'
    ∧ e' ≤ -52 ∧ Z.pos (digits2_pos m') ≤ 53.
Proof.
  intros He Hd.
  change (mul (of_int 2) (S754_finite false m e))
    with (binary_round_aux prec emax false
            (Z.pos (4503599627370496 * m)) (-51 + e) loc_Exact).
  destruct Hd as [Hd|[-> Hd]].
  - exists m, (-51 + e + 52). split; [|lia].
    apply binary_round_aux_exact.
    + rewrite digits2_mul_pow2, Hd. unfold fexp, SpecFloat.emin, prec, emax. lia.
    + vm_compute. reflexivity.
    + rewrite Hd. unfold fexp, SpecFloat.emin, prec, emax. lia.
    + unfold prec, emax. lia.
  - exists (m~0)%positive, (-51 + -1074 + 51).
    assert (Z.pos (digits2_pos m~0) = Z.pos (digits2_pos m) + 1) as Hd2
      by (cbn [digits2_pos]; lia).
    split; [|lia].
    apply binary_round_aux_exact.
    + rewrite digits2_mul_pow2. unfold fexp, SpecFloat.emin, prec, emax. lia.
    + vm_compute. reflexivity.
    + rewrite Hd2. unfold fexp, SpecFloat.emin, prec, emax. lia.
    + unfold prec, emax. lia.
Qed.

(** 2 plus a positive value below 2: between 2 and 4, 4 included. *)
Lemma add_two (m : positive) (e : Z) :
  e ≤ -52 → Z.pos (digits2_pos m) ≤ 53 →
  (∃ R, add (of_int 2) (S754_finite false m e) = S754_finite false R (-51)
        ∧ 4503599627370496 ≤ Z.pos R)
  ∨ add (of_int 2) (S754_finite false m e)
    = S754_finite false 4503599627370496 (-50).
Proof.
  intros He Hd.
  set (d := Z.to_pos (-51 - e)).
  assert (Z.pos d = -51 - e) as Hde by (unfold d; lia).
  clearbody d.
  assert (0 < 2 ^ Z.pos d) as Hpow by (apply Z.pow_pos_nonneg; lia).
  assert (2 ≤ 2 ^ Z.pos d) as Hpow2.
  { change 2 with (2 ^ 1) at 1. apply Z.pow_le_mono_r; lia. }
  pose proof (digits2_bounds m) as Hm.
  assert (Z.pos m < 2 ^ 53) as Hm53.
  { eapply Z.lt_le_trans; [apply Hm|]. apply Z.pow_le_mono_r; lia. }
  change (2 ^ 53) with 9007199254740992 in Hm53. clear Hm.
  set (M := (Pos.iter xO 4503599627370496 d + m)%positive).
  assert (Z.pos M = 4503599627370496 * 2 ^ Z.pos d + Z.pos m) as HM
    by (unfold M; rewrite Pos2Z.inj_add, pos_iter_xO; reflexivity).
  assert (add (of_int 2) (S754_finite false m e)
          = binary_round prec emax false M e) as ->.
  { change (of_int 2) with (S754_finite false 4503599627370496 (-51)).
    unfold add, SFadd. rewrite Z.min_r by lia.
    unfold shl_align. rewrite Z.sub_diag.
    replace (e - -51) with (Z.neg d) by lia. reflexivity. }
  clearbody M.
  assert (Z.pos (digits2_pos M) = 53 + Z.pos d) as HdM.
  { apply digits2_unique; [lia|].
    replace (53 + Z.pos d - 1) with (52 + Z.pos d) by lia.
    rewrite !Z.pow_add_r by lia.
    change (2 ^ 52) with 4503599627370496.
    change (2 ^ 53) with 9007199254740992. nia. }
  assert (fexp prec emax (Z.pos (digits2_pos M) + e) = -51) as Hfexp
    by (rewrite HdM; unfold fexp, SpecFloat.emin, prec, emax; lia).
  set (mrs := SpecFloat.iter_pos shr_1 d
                {| shr_m := Z.pos M; shr_r := false; shr_s := false |}).
  set (R := round_nearest_even (shr_m mrs) (loc_of_shr_record mrs)).
  assert (binary_round prec emax false M e
          = let '(mrs'', e'') := shr_fexp prec emax R (-51) loc_Exact in
            match shr_m mrs'' with
            | 0 => S754_zero false
            | Z.pos m0 =>
                if e'' <=? emax - prec
                then S754_finite false m0 e'' else S754_infinity false
            | Z.neg _ => S754_nan
            end) as ->.
  { unfold binary_round. rewrite Hfexp. unfold shl_align.
    replace (-51 - e) with (Z.pos d) by lia.
    unfold binary_round_aux, shr_fexp at 1.
    cbn [Zdigits2 shr_record_of_loc]. rewrite Hfexp.
    replace (-51 - e) with (Z.pos d) by lia. cbn [shr].
    replace (e + Z.pos d) with (-51) by lia. reflexivity. }
  assert (4503599627370496 ≤ shr_m mrs < 9007199254740992) as Hq.
  { unfold mrs. rewrite shr_m_iter by (cbn; lia). cbn [shr_m]. rewrite HM.
    rewrite Z.div_add_l by lia.
    assert (0 ≤ Z.pos m / 2 ^ Z.pos d) by (apply Z.div_pos; lia).
    assert (Z.pos m / 2 ^ Z.pos d < 4503599627370496)
      by (apply Z.div_lt_upper_bound; nia).
    lia. }
  assert (4503599627370496 ≤ R ≤ 9007199254740992) as HR.
  { unfold R.
    destruct (round_nearest_even_cases (shr_m mrs) (loc_of_shr_record mrs))
      as [-> | ->]; lia. }
  clearbody R. clear mrs Hq. destruct R as [|r|r]; [lia | | lia].
  destruct (decide (Z.pos r = 9007199254740992)) as [Hr|Hr].
  - right. injection Hr as ->. vm_compute. reflexivity.
  - left. exists r. split; [|lia].
    assert (Z.pos (digits2_pos r) = 53) as Hdr.
    { apply digits2_unique; [lia|].
      change (2 ^ (53 - 1)) with 4503599627370496.
      change (2 ^ 53) with 9007199254740992. lia. }
    unfold shr_fexp. cbn [Zdigits2 shr_record_of_loc]. rewrite Hdr.
    vm_compute. reflexivity.
Qed.

(** [0 + 2 * u] for a draw [u] of [0,1). *)
Lemma zero_base_range (u : spec_float) :
  unit_interval u →
  le (of_int 0) (add (of_int 0) (mul (of_int 2) u))
  ∧ lt (add (of_int 0) (mul (of_int 2) u)) (of_int 2).
Proof.
  intros [[s ->]|(m & e & -> & He & Hd)]%unit_interval_cases.
  - destruct s; split; reflexivity.
  - destruct (mul_two m e He Hd) as (m' & e' & -> & He' & _).
    change (add (of_int 0) (S754_finite false m' e'))
      with (S754_finite false m' e').
    split; [reflexivity|].
    apply (SFltb_finite_intro m' 4503599627370496 e' (-51)). lia.
Qed.

(** [2 + 2 * u] for a draw [u] of [0,1). *)
Lemma two_base_range (u : spec_float) :
  unit_interval u →
  le (of_int 2) (add (of_int 2) (mul (of_int 2) u))
  ∧ le (add (of_int 2) (mul (of_int 2) u)) (of_int 4).
Proof.
  intros [[s ->]|(m & e & -> & He & Hd)]%unit_interval_cases.
  - destruct s; split; reflexivity.
  - destruct (mul_two m e He Hd) as (m' & e' & -> & He' & Hd').
    destruct (add_two m' e' He' Hd') as [(R & -> & HR)| ->].
    + split.
      * apply (SFleb_finite 4503599627370496 R (-51) (-51)). right. lia.
      * apply (SFleb_finite R 4503599627370496 (-51) (-50)). left. lia.
    + split; reflexivity.
Qed.

Lemma max_draw_reaches_four :
  unit_interval max_draw
  ∧ add (of_int 2) (mul (of_int 2) max_draw) = of_int 4.
Proof. split; [split_and!|]; reflexivity. Qed.
End FloatFacts.

(** ** The retry strategy *)

Section RetryStrategyFacts.
Implicit Types self : FiniteRetryStrategy.

Lemma retries_consume self :
  _retries (consume_available_retry self) = _retries self - 1.
Proof. reflexivity. Qed.

Lemma should_retry_true self :
  should_retry_on_failure self = true ↔ 1 < _retries self.
Proof.
  unfold should_retry_on_failure. rewrite bool_decide_eq_true. lia.
Qed.

Lemma should_retry_false self :
  should_retry_on_failure self = false ↔ _retries self ≤ 1.
Proof.
  unfold should_retry_on_failure. rewrite bool_decide_eq_false. lia.
Qed.

Lemma retries_iter_consume (n : nat) self :
  _retries (Nat.iter n consume_available_retry self) = _retries self - Z.of_nat n.
Proof.
  induction n as [|n IH]; simpl.
  - lia.
  - rewrite IH. lia.
Qed.

Lemma sleep_seconds_eq self (u : spec_float) :
  _sleep_seconds self u =
    if decide (3 ≤ _retries self) then None
    else if decide (_retries self = 2)
         then Some (float.add (float.of_int 0) (float.mul (float.of_int 2) u))
         else Some (float.add (float.of_int 2) (float.mul (float.of_int 2) u)).
Proof.
  cbn. unfold FiniteRetryStrategy_sleep_seconds.
  destruct (Z.ltb_spec (_retries self) 3); repeat case_decide; try lia;
    try reflexivity.
  - subst. rewrite (proj2 (Z.eqb_eq _ _)); [reflexivity | assumption].
  - rewrite (proj2 (Z.eqb_neq _ _)); [reflexivity | assumption].
Qed.
End RetryStrategyFacts.

(** C1, as the sentence has it, does not hold: a strategy with three
    retries left computes no delay at all, one with two retries left draws
    its delay from [0,2) (one second for the draw 0.5, outside [2,4)), and
    one with a single retry left still computes a delay. *)
Lemma sleep_seconds_not_as_stated :
  ¬ (∃ d, _sleep_seconds (FiniteRetryStrategy__init__ 3) float.half = Some d
          ∧ float.le (float.of_int 0) d ∧ float.lt d (float.of_int 2))
  ∧ ¬ (∃ d, _sleep_seconds (FiniteRetryStrategy__init__ 2) float.half = Some d
            ∧ float.le (float.of_int 2) d ∧ float.lt d (float.of_int 4))
  ∧ _sleep_seconds (FiniteRetryStrategy__init__ 1) float.half ≠ None.
Proof.
  split_and!.
  - intros (d & Hd & _). discriminate Hd.
  - intros (d & Hd & Hlo & _). injection Hd as <-. vm_compute in Hlo.
    discriminate Hlo.
  - discriminate.
Qed.

(** C1, amended: for a draw [u] of [random.random()], a float of [0,1),
    [_sleep_seconds] returns no delay when three or more retries remain;
    the delay [0 + 2 * u], in [0,2), when exactly two remain; and the delay
    [2 + 2 * u], in [2,4] with 4 included, when one or fewer remain: the
    sum is rounded to binary64, and for the largest draw, [1 - 2^-53], it
    is 4.0 itself. *)
Theorem sleep_seconds_schedule (self : FiniteRetryStrategy) (u : spec_float) :
  float.unit_interval u →
  (3 ≤ _retries self → _sleep_seconds self u = None)
  ∧ (_retries self = 2 →
     ∃ d, _sleep_seconds self u = Some d
          ∧ d = float.add (float.of_int 0) (float.mul (float.of_int 2) u)
          ∧ float.le (float.of_int 0) d ∧ float.lt d (float.of_int 2))
  ∧ (_retries self ≤ 1 →
     ∃ d, _sleep_seconds self u = Some d
          ∧ d = float.add (float.of_int 2) (float.mul (float.of_int 2) u)
          ∧ float.le (float.of_int 2) d ∧ float.le d (float.of_int 4))
  ∧ float.unit_interval float.max_draw
  ∧ (_retries self ≤ 1 →
     _sleep_seconds self float.max_draw = Some (float.of_int 4)).
Proof.
  intros Hu. rewrite !sleep_seconds_eq. split_and!; try intros Hr.
  - rewrite decide_True; [reflexivity | assumption].
  - rewrite decide_False, decide_True by lia.
    eexists; split; [reflexivity |]. split; [reflexivity|].
    apply zero_base_range, Hu.
  - rewrite !decide_False by lia.
    eexists; split; [reflexivity |]. split; [reflexivity|].
    apply two_base_range, Hu.
  - apply max_draw_reaches_four.
  - rewrite !decide_False by lia. reflexivity.
Qed.

Lemma sleep_seconds_schedule_witness :
  ∃ d, _sleep_seconds (FiniteRetryStrategy__init__ 1) float.half = Some d
       ∧ float.le (float.of_int 2) d ∧ float.le d (float.of_int 4).
Proof.
  destruct (sleep_seconds_schedule (FiniteRetryStrategy__init__ 1) float.half)
    as (_ & _ & H & _).
  - split_and!; reflexivity.
  - destruct H as (d & Hd & _ & Hb); [simpl; lia |].
    exists d. split; [exact Hd | exact Hb].
Defined.

(** C8: [should_retry_on_failure] is true exactly when more than one retry
    remains; a strategy constructed with [retries = 1] permits no retry,
    and neither does any state obtained from it. *)
Theorem should_retry_on_failure_spec :
  (∀ self : FiniteRetryStrategy,
     should_retry_on_failure self = true ↔ _retries self > 1)
  ∧ (∀ n : nat,
       should_retry_on_failure
         (Nat.iter n consume_available_retry (FiniteRetryStrategy__init__ 1))
       = false).
Proof.
  split.
  - intros self. rewrite should_retry_true. lia.
  - intros n. apply should_retry_false. rewrite retries_iter_consume.
    simpl. lia.
Qed.

(** ** Instances in the store *)

Section StoreFacts.
Implicit Types h : gmap loc pyobj.

Lemma alloc_fresh o h : h !! (alloc o h).1 = None.
Proof. apply not_elem_of_dom, is_fresh. Qed.

Lemma alloc_lookup o h : (alloc o h).2 !! (alloc o h).1 = Some o.
Proof. apply lookup_insert_eq. Qed.

Lemma alloc_subseteq o h : h ⊆ (alloc o h).2.
Proof. apply insert_subseteq, (alloc_fresh o). Qed.

Lemma alloc_lookup_old o h l x :
  h !! l = Some x → (alloc o h).2 !! l = Some x ∧ l ≠ (alloc o h).1.
Proof.
  intros Hl. split.
  - eapply lookup_weaken; [exact Hl | apply alloc_subseteq].
  - intros ->. rewrite alloc_fresh in Hl. discriminate.
Qed.
End StoreFacts.

(** C9: [consume_available_retry] creates a new instance holding one retry
    fewer and changes no existing object, the receiver included; two calls
    on the same receiver give two distinct instances, each holding the
    receiver's count minus one. *)
Theorem consume_available_retry_fresh_instance
    (h : gmap loc pyobj) (self : loc) (s : FiniteRetryStrategy) :
  h !! self = Some (OFiniteRetryStrategy s) →
  ∃ l1 h1 l2 h2,
    Obj.consume_available_retry self h = Some (l1, h1)
    ∧ Obj.consume_available_retry self h1 = Some (l2, h2)
    ∧ Obj.retries l1 h1 = Some (_retries s - 1)
    ∧ Obj.retries l1 h2 = Some (_retries s - 1)
    ∧ Obj.retries l2 h2 = Some (_retries s - 1)
    ∧ Obj.retries self h1 = Some (_retries s)
    ∧ Obj.retries self h2 = Some (_retries s)
    ∧ l1 ≠ self ∧ l2 ≠ self ∧ l1 ≠ l2
    ∧ h ⊆ h1 ∧ h1 ⊆ h2.
Proof.
  intros Hself.
  set (o := OFiniteRetryStrategy (FiniteRetryStrategy__init__ (_retries s - 1))).
  destruct (alloc_lookup_old o h self _ Hself) as [Hself1 Hne1].
  destruct (alloc_lookup_old o (alloc o h).2 self _ Hself1) as [Hself2 Hne2].
  destruct (alloc_lookup_old o (alloc o h).2 (alloc o h).1 _ (alloc_lookup o h))
    as [Hl1 Hne12].
  exists (alloc o h).1, (alloc o h).2,
         (alloc o (alloc o h).2).1, (alloc o (alloc o h).2).2.
  unfold Obj.consume_available_retry, Obj.retries, Obj.new.
  rewrite Hself, Hself1, Hself2, Hl1, !alloc_lookup. fold o.
  split_and!; try reflexivity; try (symmetry; assumption); try congruence;
    apply alloc_subseteq.
Qed.

Lemma consume_available_retry_fresh_instance_witness :
  ∃ l1 h1 l2 h2,
    Obj.consume_available_retry 1%positive
      {[ 1%positive := OFiniteRetryStrategy (FiniteRetryStrategy__init__ 3) ]}
    = Some (l1, h1)
    ∧ Obj.consume_available_retry 1%positive h1 = Some (l2, h2)
    ∧ Obj.retries l1 h2 = Some 2
    ∧ Obj.retries l2 h2 = Some 2
    ∧ Obj.retries 1%positive h2 = Some 3
    ∧ l1 ≠ l2.
Proof.
  destruct (consume_available_retry_fresh_instance
              {[ 1%positive := OFiniteRetryStrategy (FiniteRetryStrategy__init__ 3) ]}
              1%positive (FiniteRetryStrategy__init__ 3))
    as (l1 & h1 & l2 & h2 & H1 & H2 & _ & H3 & H4 & _ & H5 & _ & _ & H6 & _).
  - reflexivity.
  - exists l1, h1, l2, h2. split_and!; assumption.
Defined.

(** ** The status tables *)

Section Tables.
Lemma RETRY_STATUSES_spec (status : Z) :
  status ∈ RETRY_STATUSES ↔
    status = 520 ∨ status = 522 ∨ status = 502 ∨ status = 504
    ∨ status = 500 ∨ status = 408 ∨ status = 503.
Proof.
  unfold RETRY_STATUSES, codes.bad_gateway, codes.gateway_timeout,
    codes.internal_server_error, codes.request_timeout,
    codes.service_unavailable.
  rewrite !elem_of_union, !elem_of_singleton. tauto.
Qed.

Lemma SUCCESS_STATUSES_spec (status : Z) :
  status ∈ SUCCESS_STATUSES ↔ status = 202 ∨ status = 201 ∨ status = 200.
Proof.
  unfold SUCCESS_STATUSES, codes.accepted, codes.created, codes.ok.
  rewrite !elem_of_union, !elem_of_singleton. tauto.
Qed.

(** The keys of [STATUS_EXCEPTIONS] and what they map to. *)
Lemma STATUS_EXCEPTIONS_spec (status : Z) (cls : StatusExceptionClass) :
  STATUS_EXCEPTIONS !! status = Some cls ↔
    (status, cls) ∈
      [ (502, ServerError); (400, BadRequest); (409, Conflict);
        (302, Redirect); (403, authorization_error_class);
        (504, ServerError); (500, ServerError); (415, SpecialError);
        (301, Redirect); (404, NotFound); (413, TooLarge);
        (414, URITooLong); (503, ServerError); (429, TooManyRequests);
        (401, authorization_error_class);
        (451, UnavailableForLegalReasons);
        (520, ServerError); (522, ServerError) ].
Proof.
  unfold STATUS_EXCEPTIONS. rewrite <- elem_of_list_to_map; [reflexivity|].
  apply (bool_decide_unpack _). vm_compute. exact I.
Qed.

Lemma STATUS_EXCEPTIONS_None (status : Z) :
  STATUS_EXCEPTIONS !! status = None ↔
    status ∉ [502; 400; 409; 302; 403; 504; 500; 415; 301; 404; 413; 414;
              503; 429; 401; 451; 520; 522].
Proof.
  unfold STATUS_EXCEPTIONS. rewrite <- not_elem_of_list_to_map. reflexivity.
Qed.
End Tables.

(** ** The retry loop *)

Section SessionFacts.
Context {Auth : Type} `{!Authorizer Auth} `{!Requestor} `{!Runtime}.
Implicit Types (w : World Auth) (rs : FiniteRetryStrategy) (r : Response).

Section OneRequest.
Variables (data : pydata) (files : option loc) (json : pyjson)
          (method : string) (params : loc) (timeout : Q) (url : string).

Lemma sleep_effects rs w :
  ∃ evs,
    sleep rs w =
      (Return (),
       {| heap := heap w; authorizer := authorizer w; calls := calls w;
          draws := draws w + length evs; trace := trace w ++ evs |})
    ∧ evs = from_option (λ seconds, [EvSleep seconds]) []
              (_sleep_seconds rs (random_random (draws w))).
Proof.
  unfold sleep. destruct (_sleep_seconds _ _) as [seconds|]; eexists.
  - split; [|reflexivity]. unfold emit, next_draw. cbn.
    repeat f_equal. lia.
  - split; [|reflexivity]. destruct w; cbn. rewrite app_nil_r.
    repeat f_equal. lia.
Qed.

(** What [_make_request] does to the world. *)
Lemma make_request_effects rs w res w1 :
  _make_request data files json method params rs timeout url w = (res, w1) →
  heap w1 = heap w
  ∧ ∃ evs,
      trace w1 = trace w ++ evs
      ∧ clears evs = 0%nat
      ∧ refreshes evs =
          (if negb (is_valid (authorizer w)) && has_refresh Auth
           then 1 else 0)%nat
      ∧ responses evs =
          match res with Return (Some r, _) => [r] | _ => [] end
      ∧ Forall (λ req, req_data req = data) (requests evs)
      ∧ match res with
        | Return (None, _) => should_retry_on_failure rs = true
        | _ => True
        end.
Proof.
  unfold _make_request, try_except, rate_limiter_call,
    _set_header_callback, get_authorizer, authorizer_refresh,
    requestor_request, raise, mbind, Py_bind, mret, Py_ret.
  destruct (negb (is_valid (authorizer w)) && has_refresh Auth) eqn:Hcond.
  - destruct (refresh (authorizer w)) as [e|a] eqn:Hrefresh.
    + repeat case_match; effects_done.
    + repeat case_match; effects_done.
  - repeat case_match; effects_done.
Qed.

(** What one attempt does to the world. *)
Lemma attempt_effects rs w res w1 :
  attempt data files json method params timeout url rs w = (res, w1) →
  heap w1 = heap w
  ∧ ∃ evs,
      trace w1 = trace w ++ evs
      ∧ clears evs = 0%nat
      ∧ refreshes evs =
          (if negb (is_valid (authorizer w)) && has_refresh Auth
           then 1 else 0)%nat
      ∧ responses evs =
          match res with Return (Some r, _) => [r] | _ => [] end
      ∧ Forall (λ req, req_data req = data) (requests evs)
      ∧ match res with
        | Return (None, _) => should_retry_on_failure rs = true
        | _ => True
        end.
Proof.
  unfold attempt, mbind, Py_bind.
  destruct (sleep_effects rs w) as (evs0 & -> & Hevs0).
  intros (Hheap & evs & Htrace & Hc & Hr & Hresp & Hreq & Hnone)
    %make_request_effects.
  split; [exact Hheap|]. exists (evs0 ++ evs).
  assert (clears evs0 = 0%nat ∧ refreshes evs0 = 0%nat
          ∧ responses evs0 = [] ∧ requests evs0 = []) as (H1 & H2 & H3 & H4).
  { subst evs0. destruct (_sleep_seconds _ _); repeat split. }
  unfold clears, refreshes, responses, requests in *.
  rewrite !omap_app, !length_app, H1, H2, H3, H4, Htrace, app_assoc.
  split_and!; done.
Qed.

(** The body of [_request_with_retries_fuel], one attempt at a time. *)
Lemma request_with_retries_fuel_S (n : nat) rs w :
  _request_with_retries_fuel (S n) data files json method params timeout
    url (Some rs) w =
    match attempt data files json method params timeout url rs w with
    | (Return (Some r, saved_exception), w1) =>
        if should_retry_on_failure rs && wants_retry r
        then _request_with_retries_fuel n data files json method params
               timeout url (Some (consume_available_retry rs))
               (after_response r w1)
        else (final_classification r, after_response r w1)
    | (Return (None, saved_exception), w1) =>
        _request_with_retries_fuel n data files json method params
          timeout url (Some (consume_available_retry rs)) w1
    | (Raise e, w1) => (Raise e, w1)
    end.
Proof.
  cbn [_request_with_retries_fuel default from_option].
  destruct (attempt data files json method params timeout url rs w)
    as [res w1] eqn:Hattempt.
  pose proof (attempt_effects _ _ _ _ Hattempt) as (_ & _ & _ & _ & _ & _ & _ & Hnone).
  revert Hattempt.
  unfold attempt, _do_retry, wants_retry, after_response, mbind, Py_bind,
    mret, Py_ret, id.
  destruct (sleep rs w) as [[[]|e] ws]; [|by intros [= <- <-]].
  destruct (_make_request _ _ _ _ _ _ _ _ ws) as [[[[r|] saved]|e] w1'];
    intros [= <- <-]; [| |reflexivity].
  - unfold authorizer_clear_access_token.
    destruct (bool_decide (status_code r = codes.unauthorized));
      destruct (should_retry_on_failure rs); cbn [andb orb];
      classified.
  - rewrite Hnone. reflexivity.
Qed.

Lemma attempts_of_consume rs :
  should_retry_on_failure rs = true →
  attempts_of (Some rs) = S (attempts_of (Some (consume_available_retry rs))).
Proof.
  intros Hr%should_retry_true. unfold attempts_of. simpl. lia.
Qed.

(** Recursion over the retries a strategy can still grant. *)
Lemma retry_induction (P : FiniteRetryStrategy → Prop) :
  (∀ rs, (should_retry_on_failure rs = true →
          P (consume_available_retry rs)) → P rs) →
  ∀ rs, P rs.
Proof.
  intros Hstep rs. remember (Z.to_nat (_retries rs - 1)) as n eqn:Hn.
  revert rs Hn. induction n as [|n IH]; intros rs Hn; apply Hstep;
    intros Hr%should_retry_true.
  - lia.
  - apply IH. simpl. lia.
Qed.

(** The recursion never runs out of fuel: any budget of at least
    [attempts_of] levels gives the same run. *)
Lemma request_with_retries_fuel_enough rs :
  ∀ (n : nat) w,
    (attempts_of (Some rs) ≤ n)%nat →
    _request_with_retries_fuel n data files json method params timeout
      url (Some rs) w
    = _request_with_retries data files json method params timeout url
        (Some rs) w.
Proof.
  induction rs as [rs IH] using retry_induction. intros n w Hn.
  unfold _request_with_retries.
  destruct n as [|n]; [unfold attempts_of in Hn; lia|].
  change (attempts_of (Some rs)) with
    (S (Z.to_nat (_retries rs - 1))) in *.
  rewrite !request_with_retries_fuel_S.
  destruct (attempt _ _ _ _ _ _ _ rs w) as [[[[r|] saved]|e] w1] eqn:Hattempt;
    [| |reflexivity].
  - destruct (should_retry_on_failure rs) eqn:Hretry; [|reflexivity].
    destruct (wants_retry r); [|reflexivity]. cbn [andb].
    pose proof (attempts_of_consume rs Hretry) as Hc.
    change (attempts_of (Some rs)) with
      (S (Z.to_nat (_retries rs - 1))) in Hc.
    rewrite !IH by (assumption || lia). reflexivity.
  - pose proof (attempt_effects _ _ _ _ Hattempt)
      as (_ & _ & _ & _ & _ & _ & _ & Hretry).
    pose proof (attempts_of_consume rs Hretry) as Hc.
    change (attempts_of (Some rs)) with
      (S (Z.to_nat (_retries rs - 1))) in Hc.
    rewrite !IH by (assumption || lia). reflexivity.
Qed.

(** The body of [_request_with_retries], one attempt at a time: the
    recursive equation of the source. *)
Lemma request_with_retries_unfold rs w :
  _request_with_retries data files json method params timeout url (Some rs) w =
    match attempt data files json method params timeout url rs w with
    | (Return (Some r, saved_exception), w1) =>
        if should_retry_on_failure rs && wants_retry r
        then _request_with_retries data files json method params timeout
               url (Some (consume_available_retry rs)) (after_response r w1)
        else (final_classification r, after_response r w1)
    | (Return (None, saved_exception), w1) =>
        _request_with_retries data files json method params timeout
          url (Some (consume_available_retry rs)) w1
    | (Raise e, w1) => (Raise e, w1)
    end.
Proof.
  unfold _request_with_retries at 1.
  change (attempts_of (Some rs)) with (S (Z.to_nat (_retries rs - 1))).
  rewrite request_with_retries_fuel_S.
  destruct (attempt _ _ _ _ _ _ _ rs w) as [[[[r|] saved]|e] w1] eqn:Hattempt;
    [| |reflexivity].
  - destruct (should_retry_on_failure rs) eqn:Hretry; [|reflexivity].
    destruct (wants_retry r); [|reflexivity]. cbn [andb].
    apply request_with_retries_fuel_enough.
    pose proof (attempts_of_consume rs Hretry) as Hc.
    change (attempts_of (Some rs)) with
      (S (Z.to_nat (_retries rs - 1))) in Hc. lia.
  - pose proof (attempt_effects _ _ _ _ Hattempt)
      as (_ & _ & _ & _ & _ & _ & _ & Hretry).
    apply request_with_retries_fuel_enough.
    pose proof (attempts_of_consume rs Hretry) as Hc.
    change (attempts_of (Some rs)) with
      (S (Z.to_nat (_retries rs - 1))) in Hc. lia.
Qed.

(** Without a state, the loop starts from the default strategy. *)
Lemma request_with_retries_None w :
  _request_with_retries data files json method params timeout url None w
  = _request_with_retries data files json method params timeout url
      (Some (FiniteRetryStrategy__init__ default_retries)) w.
Proof. reflexivity. Qed.

Lemma after_response_effects r w :
  heap (after_response r w) = heap w
  ∧ ∃ evs,
      trace (after_response r w) = trace w ++ evs
      ∧ evs = (if bool_decide (status_code r = codes.unauthorized)
               then [EvClearAccessToken] else [])
      ∧ clears evs = unauthorized [EvResponse r]
      ∧ responses evs = [] ∧ requests evs = [].
Proof.
  unfold after_response, unauthorized.
  destruct (bool_decide (status_code r = codes.unauthorized)) eqn:Hs.
  - apply bool_decide_eq_true in Hs. split; [reflexivity|].
    eexists; split_and!; try reflexivity.
    cbn. rewrite decide_True by assumption. reflexivity.
  - apply bool_decide_eq_false in Hs. split; [reflexivity|].
    exists []. rewrite app_nil_r. split_and!; try reflexivity.
    cbn. rewrite decide_False by assumption. reflexivity.
Qed.

Lemma unauthorized_responses (evs : list Event) r :
  responses evs = [r] → unauthorized evs = unauthorized [EvResponse r].
Proof. unfold unauthorized. intros ->. reflexivity. Qed.

Lemma unauthorized_no_responses (evs : list Event) :
  responses evs = [] → unauthorized evs = 0%nat.
Proof. unfold unauthorized. intros ->. reflexivity. Qed.

Lemma unauthorized_app (evs1 evs2 : list Event) :
  unauthorized (evs1 ++ evs2) = (unauthorized evs1 + unauthorized evs2)%nat.
Proof.
  unfold unauthorized, responses.
  rewrite omap_app, filter_app, length_app. reflexivity.
Qed.

Lemma clears_app (evs1 evs2 : list Event) :
  clears (evs1 ++ evs2) = (clears evs1 + clears evs2)%nat.
Proof. unfold clears. rewrite omap_app, length_app. reflexivity. Qed.

Lemma requests_app (evs1 evs2 : list Event) :
  requests (evs1 ++ evs2) = requests evs1 ++ requests evs2.
Proof. apply omap_app. Qed.

(** What a whole run of the loop does to the world: the store is left
    alone, every 401 received is matched by one clearing of the access
    token, and every request carries the [data] the loop was given. *)
Lemma request_with_retries_effects rs :
  ∀ w res w',
    _request_with_retries data files json method params timeout url
      (Some rs) w = (res, w') →
    heap w' = heap w
    ∧ ∃ evs,
        trace w' = trace w ++ evs
        ∧ clears evs = unauthorized evs
        ∧ Forall (λ req, req_data req = data) (requests evs).
Proof.
  induction rs as [rs IH] using retry_induction. intros w res w'.
  rewrite request_with_retries_unfold.
  destruct (attempt _ _ _ _ _ _ _ rs w) as [[[[r|] saved]|e] w1] eqn:Hattempt;
    pose proof (attempt_effects _ _ _ _ Hattempt)
      as (Hheap1 & evs1 & Htrace1 & Hclear1 & _ & Hresp1 & Hreq1 & Hnone).
  - destruct (after_response_effects r w1)
      as (Hheap2 & evs2 & Htrace2 & _ & Hclear2 & Hresp2 & Hreq2).
    assert (clears (evs1 ++ evs2) = unauthorized (evs1 ++ evs2)) as Hcount.
    { rewrite clears_app, unauthorized_app, Hclear1, Hclear2.
      rewrite (unauthorized_responses evs1 r Hresp1).
      rewrite (unauthorized_no_responses evs2 Hresp2). lia. }
    assert (Forall (λ req, req_data req = data) (requests (evs1 ++ evs2)))
      as Hdata.
    { rewrite requests_app, Hreq2, app_nil_r. exact Hreq1. }
    destruct (should_retry_on_failure rs && wants_retry r) eqn:Hretry.
    + apply andb_prop in Hretry as [Hretry _].
      intros (Hheap3 & evs3 & Htrace3 & Hclear3 & Hreq3)%(IH Hretry).
      split; [congruence|]. exists ((evs1 ++ evs2) ++ evs3).
      rewrite Htrace3, Htrace2, Htrace1, clears_app, unauthorized_app,
        requests_app, Forall_app, !app_assoc.
      split_and!; [reflexivity | lia | assumption | assumption].
    + intros [= <- <-]. split; [congruence|]. exists (evs1 ++ evs2).
      rewrite Htrace2, Htrace1, app_assoc. split_and!; done.
  - intros (Hheap3 & evs3 & Htrace3 & Hclear3 & Hreq3)%(IH Hnone).
    split; [congruence|]. exists (evs1 ++ evs3).
    rewrite Htrace3, Htrace1, clears_app, unauthorized_app,
      requests_app, Forall_app, !app_assoc.
    rewrite Hclear1, (unauthorized_no_responses evs1 Hresp1).
    split_and!; [reflexivity | lia | assumption | assumption].
  - intros [= <- <-]. split; [assumption|]. exists evs1.
    rewrite Hclear1, (unauthorized_no_responses evs1 Hresp1).
    split_and!; done.
Qed.

(** *** The outcome of a response, by status *)

Lemma final_classification_mapped r (cls : StatusExceptionClass) :
  STATUS_EXCEPTIONS !! status_code r = Some cls →
  final_classification r = Raise (StatusException cls r).
Proof. unfold final_classification. intros ->. reflexivity. Qed.

Lemma final_classification_success r :
  status_code r ∈ SUCCESS_STATUSES →
  final_classification r =
    if bool_decide (headers r !! "content-length"%string = Some "0"%string)
    then Return (PStr EmptyString)
    else match response_json r with
         | Some decoded => Return decoded
         | None => Raise (BadJSON r)
         end.
Proof.
  intros Hs. unfold final_classification.
  rewrite (bool_decide_eq_true_2 _ Hs). cbn [negb].
  apply SUCCESS_STATUSES_spec in Hs.
  assert (STATUS_EXCEPTIONS !! status_code r = None) as ->.
  { apply STATUS_EXCEPTIONS_None. rewrite !elem_of_cons, elem_of_nil. lia. }
  rewrite bool_decide_eq_false_2; [reflexivity|].
  unfold codes.no_content. lia.
Qed.

Lemma final_classification_unexpected r :
  STATUS_EXCEPTIONS !! status_code r = None →
  status_code r ≠ codes.no_content →
  status_code r ∉ SUCCESS_STATUSES →
  final_classification r = Raise (AssertionError (status_code r)).
Proof.
  intros Hnone Hcontent Hsuccess. unfold final_classification.
  rewrite Hnone, (bool_decide_eq_false_2 _ Hcontent),
    (bool_decide_eq_false_2 _ Hsuccess).
  reflexivity.
Qed.

Lemma wants_retry_status r :
  status_code r ∈ RETRY_STATUSES → wants_retry r = true.
Proof.
  intros Hs. unfold wants_retry. rewrite (bool_decide_eq_true_2 _ Hs).
  apply orb_true_r.
Qed.

Lemma wants_retry_unauthorized r :
  status_code r = codes.unauthorized → wants_retry r = has_refresh Auth.
Proof.
  intros Hs. unfold wants_retry.
  rewrite (bool_decide_eq_true_2 _ Hs), bool_decide_eq_false_2.
  - cbn [andb]. apply orb_false_r.
  - rewrite RETRY_STATUSES_spec, Hs. unfold codes.unauthorized. lia.
Qed.

Lemma wants_retry_other r :
  status_code r ≠ codes.unauthorized →
  status_code r ∉ RETRY_STATUSES →
  wants_retry r = false.
Proof.
  intros H1 H2. unfold wants_retry.
  rewrite (bool_decide_eq_false_2 _ H1), (bool_decide_eq_false_2 _ H2).
  reflexivity.
Qed.

Lemma after_response_other r w :
  status_code r ≠ codes.unauthorized → after_response r w = w.
Proof.
  intros Hs. unfold after_response.
  rewrite (bool_decide_eq_false_2 _ Hs). reflexivity.
Qed.

Lemma after_response_unauthorized r w :
  status_code r = codes.unauthorized →
  after_response r w =
    emit [EvClearAccessToken]
      (set_authorizer (_clear_access_token (authorizer w)) w).
Proof.
  intros Hs. unfold after_response.
  rewrite (bool_decide_eq_true_2 _ Hs). reflexivity.
Qed.

(** A response that is neither a 401 nor of a retryable status ends the
    run with its final classification. *)
Lemma request_with_retries_terminal rs w r saved w1 :
  attempt data files json method params timeout url rs w
    = (Return (Some r, saved), w1) →
  status_code r ≠ codes.unauthorized →
  status_code r ∉ RETRY_STATUSES →
  _request_with_retries data files json method params timeout url
    (Some rs) w = (final_classification r, w1).
Proof.
  intros Hattempt H1 H2.
  rewrite request_with_retries_unfold, Hattempt.
  rewrite (wants_retry_other r H1 H2), andb_false_r.
  rewrite (after_response_other r w1 H1). reflexivity.
Qed.

(** Retryable statuses: retried while the strategy permits. *)
Lemma request_with_retries_retryable rs w r saved w1 :
  attempt data files json method params timeout url rs w
    = (Return (Some r, saved), w1) →
  status_code r ∈ RETRY_STATUSES →
  should_retry_on_failure rs = true →
  _request_with_retries data files json method params timeout url
    (Some rs) w
  = _request_with_retries data files json method params timeout url
      (Some (consume_available_retry rs)) w1.
Proof.
  intros Hattempt Hs Hretry.
  rewrite request_with_retries_unfold, Hattempt, Hretry.
  rewrite (wants_retry_status r Hs). cbn [andb].
  rewrite after_response_other; [reflexivity|].
  apply RETRY_STATUSES_spec in Hs. unfold codes.unauthorized. lia.
Qed.

(** Retryable statuses other than 408, once retries are exhausted:
    [ServerError]. *)
Lemma request_with_retries_exhausted_server_error rs w r saved w1 :
  attempt data files json method params timeout url rs w
    = (Return (Some r, saved), w1) →
  status_code r ∈ RETRY_STATUSES →
  status_code r ≠ codes.request_timeout →
  should_retry_on_failure rs = false →
  _request_with_retries data files json method params timeout url
    (Some rs) w = (Raise (StatusException ServerError r), w1).
Proof.
  intros Hattempt Hs Hne Hretry.
  rewrite request_with_retries_unfold, Hattempt, Hretry. cbn [andb].
  apply RETRY_STATUSES_spec in Hs. unfold codes.request_timeout in Hne.
  rewrite after_response_other by (unfold codes.unauthorized; lia).
  rewrite (final_classification_mapped r ServerError); [reflexivity|].
  apply STATUS_EXCEPTIONS_spec. rewrite !elem_of_cons.
  decompose [or] Hs; try lia;
    match goal with Heq : status_code r = _ |- _ => rewrite Heq end;
    tauto.
Qed.

(** Status 408, once retries are exhausted: the assertion on the
    success statuses fails. *)
Lemma request_with_retries_exhausted_request_timeout rs w r saved w1 :
  attempt data files json method params timeout url rs w
    = (Return (Some r, saved), w1) →
  status_code r = codes.request_timeout →
  should_retry_on_failure rs = false →
  _request_with_retries data files json method params timeout url
    (Some rs) w = (Raise (AssertionError 408), w1).
Proof.
  intros Hattempt Hs Hretry.
  rewrite request_with_retries_unfold, Hattempt, Hretry. cbn [andb].
  unfold codes.request_timeout in Hs.
  rewrite after_response_other by (unfold codes.unauthorized; lia).
  rewrite final_classification_unexpected; [rewrite Hs; reflexivity|..].
  - apply STATUS_EXCEPTIONS_None. rewrite !elem_of_cons, elem_of_nil. lia.
  - unfold codes.no_content. lia.
  - rewrite SUCCESS_STATUSES_spec. lia.
Qed.

(** *** Responses with status 401 *)

(** C2, amended: for an attempt answered with status 401 the access
    token is cleared once; then, if the authorizer supports refresh
    and the retry strategy still permits a retry, the request is
    retried, the next attempt refreshing the token when it obtains its
    header; if the authorizer does not support refresh, the error of
    the 401 entry of [STATUS_EXCEPTIONS] is raised without a retry.
    Over a whole run the token is cleared as many times as 401
    responses are received. *)
Theorem unauthorized_clears_then_retries_or_raises rs w r saved w1 :
  attempt data files json method params timeout url rs w
    = (Return (Some r, saved), w1) →
  status_code r = codes.unauthorized →
  let w2 := emit [EvClearAccessToken]
              (set_authorizer (_clear_access_token (authorizer w1)) w1) in
  (has_refresh Auth = true → should_retry_on_failure rs = true →
     _request_with_retries data files json method params timeout url
       (Some rs) w
     = _request_with_retries data files json method params timeout url
         (Some (consume_available_retry rs)) w2
     ∧ ∀ res w3,
         attempt data files json method params timeout url
           (consume_available_retry rs) w2 = (res, w3) →
         ∃ evs, trace w3 = trace w2 ++ evs ∧ refreshes evs = 1%nat)
  ∧ (has_refresh Auth = false →
     _request_with_retries data files json method params timeout url
       (Some rs) w
     = (Raise (StatusException authorization_error_class r), w2))
  ∧ (∀ res w',
       _request_with_retries data files json method params timeout url
         (Some rs) w = (res, w') →
       ∃ evs, trace w' = trace w ++ evs ∧ clears evs = unauthorized evs).
Proof.
  intros Hattempt Hs w2. split_and!.
  - intros Hrefresh Hretry. split.
    + rewrite request_with_retries_unfold, Hattempt, Hretry.
      rewrite (wants_retry_unauthorized r Hs), Hrefresh. cbn [andb].
      rewrite (after_response_unauthorized r w1 Hs). reflexivity.
    + intros res w3 (_ & evs & Htrace & _ & Hevs & _)%attempt_effects.
      exists evs. split; [exact Htrace|]. rewrite Hevs. subst w2.
      world_simpl. rewrite clear_access_token_invalid, Hrefresh.
      reflexivity.
  - intros Hrefresh.
    rewrite request_with_retries_unfold, Hattempt.
    rewrite (wants_retry_unauthorized r Hs), Hrefresh, andb_false_r.
    rewrite (after_response_unauthorized r w1 Hs).
    rewrite (final_classification_mapped r authorization_error_class);
      [reflexivity|].
    rewrite Hs. apply STATUS_EXCEPTIONS_spec. rewrite !elem_of_cons. tauto.
  - intros res w' (_ & evs & Htrace & Hcount & _)%request_with_retries_effects.
    exists evs. split; assumption.
Qed.

(** C10: a 401 received when the strategy permits no further retry is
    not retried, whether or not the authorizer supports refresh: the
    access token is cleared and the error of the 401 entry of
    [STATUS_EXCEPTIONS] is raised. *)
Theorem unauthorized_without_retry_left rs w r saved w1 :
  attempt data files json method params timeout url rs w
    = (Return (Some r, saved), w1) →
  status_code r = codes.unauthorized →
  _retries rs ≤ 1 →
  let w2 := emit [EvClearAccessToken]
              (set_authorizer (_clear_access_token (authorizer w1)) w1) in
  _request_with_retries data files json method params timeout url
    (Some rs) w
  = (Raise (StatusException authorization_error_class r), w2)
  ∧ calls w2 = calls w1
  ∧ trace w2 = trace w1 ++ [EvClearAccessToken]
  ∧ authorizer w2 = _clear_access_token (authorizer w1).
Proof.
  intros Hattempt Hs Hretries%should_retry_false w2.
  split; [|split_and!; reflexivity].
  rewrite request_with_retries_unfold, Hattempt, Hretries. cbn [andb].
  rewrite (after_response_unauthorized r w1 Hs).
  rewrite (final_classification_mapped r authorization_error_class);
    [reflexivity|].
  rewrite Hs. apply STATUS_EXCEPTIONS_spec. rewrite !elem_of_cons. tauto.
Qed.

(** *** Terminal statuses *)

(** C4, amended: a response with status 429, the number registered
    under [too_many_requests], ends the run with [TooManyRequests]
    carrying the response. *)
Theorem too_many_requests_raises rs w r saved w1 :
  attempt data files json method params timeout url rs w
    = (Return (Some r, saved), w1) →
  status_code r = 429 →
  _request_with_retries data files json method params timeout url
    (Some rs) w = (Raise (StatusException TooManyRequests r), w1).
Proof.
  intros Hattempt Hs.
  rewrite (request_with_retries_terminal rs w r saved w1 Hattempt).
  - rewrite (final_classification_mapped r TooManyRequests); [reflexivity|].
    rewrite Hs. apply STATUS_EXCEPTIONS_spec. rewrite !elem_of_cons. tauto.
  - rewrite Hs. discriminate.
  - rewrite RETRY_STATUSES_spec. lia.
Qed.

(** C5, amended: a response with status 200, 201 or 202 ends the run;
    if its content-length header is the string "0" the result is the
    empty string, otherwise the result is the decoded JSON body, and
    [BadJSON] is raised when the body does not decode. *)
Theorem success_returns_decoded_body rs w r saved w1 :
  attempt data files json method params timeout url rs w
    = (Return (Some r, saved), w1) →
  status_code r = 200 ∨ status_code r = 201 ∨ status_code r = 202 →
  _request_with_retries data files json method params timeout url
    (Some rs) w
  = (if bool_decide (headers r !! "content-length"%string = Some "0"%string)
     then Return (PStr EmptyString)
     else match response_json r with
          | Some decoded => Return decoded
          | None => Raise (BadJSON r)
          end,
     w1).
Proof.
  intros Hattempt Hs.
  rewrite (request_with_retries_terminal rs w r saved w1 Hattempt).
  - rewrite final_classification_success; [reflexivity|].
    apply SUCCESS_STATUSES_spec. lia.
  - unfold codes.unauthorized. lia.
  - rewrite RETRY_STATUSES_spec. lia.
Qed.
End OneRequest.
End SessionFacts.

(** ** Normalisation of the arguments of [request] *)

Section RequestFacts.
Context {Auth : Type} `{!Authorizer Auth} `{!Requestor} `{!Runtime}.
Implicit Types (w : World Auth) (hc : gmap loc pyobj).

Lemma hoare_bind {A B} (P : World Auth → Prop) (m : Py A) (f : A → Py B)
    (Q : A → World Auth → Prop) (R : B → World Auth → Prop)
    (E : World Auth → Prop) :
  hoare P m Q E → (∀ a, hoare (Q a) (f a) R E) → hoare P (m ≫= f) R E.
Proof.
  intros Hm Hf w HP. specialize (Hm w HP). unfold mbind, Py_bind.
  destruct (m w) as [[a|e] w1]; [exact (Hf a w1 Hm) | exact Hm].
Qed.

Lemma hoare_ret {A} (P : World Auth → Prop) (a : A)
    (Q : A → World Auth → Prop) (E : World Auth → Prop) :
  (∀ w, P w → Q a w) → hoare P (mret a) Q E.
Proof. intros HPQ w HP. exact (HPQ w HP). Qed.

Lemma hoare_weaken {A} (P P' : World Auth → Prop) (m : Py A)
    (Q Q' : A → World Auth → Prop) (E E' : World Auth → Prop) :
  hoare P' m Q' E' →
  (∀ w, P w → P' w) → (∀ a w, Q' a w → Q a w) → (∀ w, E' w → E w) →
  hoare P m Q E.
Proof.
  intros Hm HP HQ HE w Hw. specialize (Hm w (HP w Hw)).
  destruct (m w) as [[a|e] w1]; auto.
Qed.

Lemma hoare_deepcopy hc tr0 (l : loc) :
  hoare (untouched hc tr0) (deepcopy l)
    (λ c w, untouched hc tr0 w
            ∧ ∃ o, own hc c o w ∧ ∀ o', hc !! l = Some o' → o = o')
    (untouched hc tr0).
Proof.
  intros w [Hsub Htr]. unfold deepcopy.
  destruct (heap w !! l) as [o|] eqn:Hl; [|by split].
  change (alloc o (heap w)) with ((alloc o (heap w)).1, (alloc o (heap w)).2).
  split; [split|].
  - etrans; [exact Hsub | apply alloc_subseteq].
  - exact Htr.
  - exists o. split; [split|].
    + eapply lookup_weaken_None; [apply (alloc_fresh o) | exact Hsub].
    + apply alloc_lookup.
    + intros o' Ho'. eapply lookup_weaken in Ho'; [|exact Hsub]. congruence.
Qed.

Lemma hoare_new_dict hc tr0 :
  hoare (untouched hc tr0) new_dict
    (λ c w, untouched hc tr0 w ∧ own hc c (ODict ∅) w)
    (untouched hc tr0).
Proof.
  intros w [Hsub Htr]. unfold new_dict.
  change (alloc (ODict ∅) (heap w))
    with ((alloc (ODict ∅) (heap w)).1, (alloc (ODict ∅) (heap w)).2).
  split; [split|split].
  - etrans; [exact Hsub | apply alloc_subseteq].
  - exact Htr.
  - eapply lookup_weaken_None; [apply (alloc_fresh (ODict ∅)) | exact Hsub].
  - apply alloc_lookup.
Qed.

Lemma hoare_dict_bool hc tr0 (c : loc) (o : pyobj) :
  hoare (λ w, untouched hc tr0 w ∧ own hc c o w) (dict_bool c)
    (λ _ w, untouched hc tr0 w ∧ ∃ d, o = ODict d ∧ own hc c o w)
    (untouched hc tr0).
Proof.
  intros w [Hw [Hnone Hc]]. unfold dict_bool. rewrite Hc.
  destruct o as [d|s]; [|exact Hw].
  split; [exact Hw|]. exists d. split; [reflexivity|]. split; assumption.
Qed.

Lemma hoare_setitem hc tr0 (c : loc) (o : pyobj) (key : string)
    (value : pyval) :
  hoare (λ w, untouched hc tr0 w ∧ own hc c o w) (setitem c key value)
    (λ _ w, untouched hc tr0 w
            ∧ ∃ d, o = ODict d ∧ own hc c (ODict (<[key := value]> d)) w)
    (untouched hc tr0).
Proof.
  intros w [[Hsub Htr] [Hnone Hc]]. unfold setitem. rewrite Hc.
  destruct o as [d|s]; [|by split]. world_simpl.
  split; [split|].
  - apply insert_subseteq_r; [exact Hnone | exact Hsub].
  - exact Htr.
  - exists d. split; [reflexivity|]. split; [exact Hnone|].
    apply lookup_insert_eq.
Qed.

Lemma untouched_sent_as hc tr0 (data : pydata) w :
  untouched hc tr0 w → sent_as hc tr0 data w.
Proof.
  intros [Hsub Htr]. split; [exact Hsub|]. exists [].
  rewrite app_nil_r. split; [exact Htr | constructor].
Qed.

Lemma hoare_bind_weak {A B} (P : World Auth → Prop) (m : Py A)
    (f : A → Py B) (Q : A → World Auth → Prop) (R : B → World Auth → Prop)
    (E E' : World Auth → Prop) :
  hoare P m Q E' → (∀ w, E' w → E w) → (∀ a, hoare (Q a) (f a) R E) →
  hoare P (m ≫= f) R E.
Proof.
  intros Hm HE Hf. apply hoare_bind with (Q := Q); [|exact Hf].
  eapply hoare_weaken; [exact Hm | auto..].
Qed.

(** [deepcopy(params) or {}]: a mapping made during the call. *)
Lemma hoare_params hc tr0 (params : option loc) :
  hoare (untouched hc tr0)
    (match params return Py loc with
     | Some l =>
         copy ← deepcopy l;
         nonempty ← dict_bool copy;
         if (nonempty : bool) then mret copy else new_dict
     | None => new_dict
     end)
    (λ p w, untouched hc tr0 w ∧ ∃ o, own hc p o w)
    (untouched hc tr0).
Proof.
  intros w Hw. destruct params as [l|].
  - unfold mbind, Py_bind.
    pose proof (hoare_deepcopy hc tr0 l w Hw) as Hcopy.
    destruct (deepcopy l w) as [[copy|e] w1]; [|exact Hcopy].
    destruct Hcopy as (Hw1 & o & Hown & _).
    pose proof (hoare_dict_bool hc tr0 copy o w1 (conj Hw1 Hown)) as Hbool.
    destruct (dict_bool copy w1) as [[[]|e] w2]; [| |exact Hbool].
    + destruct Hbool as (Hw2 & d & _ & Hown2). split; eauto.
    + destruct Hbool as (Hw2 & _).
      pose proof (hoare_new_dict hc tr0 w2 Hw2) as Hnew.
      destruct (new_dict w2) as [[p|e] w3]; [|exact Hnew].
      destruct Hnew as (Hw3 & Hown3). split; eauto.
  - pose proof (hoare_new_dict hc tr0 w Hw) as Hnew.
    destruct (new_dict w) as [[p|e] w3]; [|exact Hnew].
    destruct Hnew as (Hw3 & Hown3). split; eauto.
Qed.

(** The normalisation of [data]. *)
Lemma hoare_data hc tr0 (data : pydata) :
  hoare (untouched hc tr0)
    (match data return Py pydata with
     | DataDict l =>
         data ← deepcopy l;
         setitem data "api_type" (PStr "json");;
         items ← dict_items data;
         mret (DataItems (sorted items))
     | _ => mret data
     end)
    (λ data' w, untouched hc tr0 w ∧ normalized_data hc data data')
    (untouched hc tr0).
Proof.
  intros w Hw. destruct data as [|l|items|b|fileno];
    try (split; [exact Hw | reflexivity]).
  unfold mbind, Py_bind.
  pose proof (hoare_deepcopy hc tr0 l w Hw) as Hcopy.
  destruct (deepcopy l w) as [[copy|e] w1]; [|exact Hcopy].
  destruct Hcopy as (Hw1 & o & Hown & Ho).
  pose proof (hoare_setitem hc tr0 copy o "api_type" (PStr "json") w1
                (conj Hw1 Hown)) as Hset.
  destruct (setitem copy "api_type" (PStr "json") w1) as [[[]|e] w2];
    [|exact Hset].
  destruct Hset as (Hw2 & d & -> & _ & Hcopy2).
  unfold dict_items, mret, Py_ret. rewrite Hcopy2.
  split; [exact Hw2|]. intros d' Hd'. specialize (Ho _ Hd').
  injection Ho as ->. reflexivity.
Qed.

(** The normalisation of [json]. *)
Lemma hoare_json hc tr0 (json : pyjson) :
  hoare (untouched hc tr0)
    (match json return Py pyjson with
     | JsonDict l =>
         json ← deepcopy l;
         setitem json "api_type" (PStr "json");;
         mret (JsonDict json)
     | _ => mret json
     end)
    (λ _ w, untouched hc tr0 w)
    (untouched hc tr0).
Proof.
  intros w Hw. destruct json as [|l|v]; try exact Hw.
  unfold mbind, Py_bind.
  pose proof (hoare_deepcopy hc tr0 l w Hw) as Hcopy.
  destruct (deepcopy l w) as [[copy|e] w1]; [|exact Hcopy].
  destruct Hcopy as (Hw1 & o & Hown & Ho).
  pose proof (hoare_setitem hc tr0 copy o "api_type" (PStr "json") w1
                (conj Hw1 Hown)) as Hset.
  destruct (setitem copy "api_type" (PStr "json") w1) as [[[]|e] w2];
    [|exact Hset].
  exact (proj1 Hset).
Qed.

(** The loop sends what it is given and leaves the store alone. *)
Lemma hoare_request_with_retries hc tr0 (data data' : pydata)
    (files : option loc) (json : pyjson) (method : string) (params : loc)
    (timeout : Q) (url : string) :
  hoare (λ w, untouched hc tr0 w ∧ normalized_data hc data data')
    (_request_with_retries data' files json method params timeout url None)
    (λ _, sent_as hc tr0 data)
    (sent_as hc tr0 data).
Proof.
  intros w [[Hsub Htr] Hdata].
  destruct (_request_with_retries data' files json method params timeout
              url None w) as [res w'] eqn:Hrun.
  rewrite request_with_retries_None in Hrun.
  apply request_with_retries_effects in Hrun
    as (Hheap & evs & Htrace & _ & Hreq).
  assert (sent_as hc tr0 data w') as Hsent.
  { split; [rewrite Hheap; exact Hsub|]. exists evs.
    split; [rewrite Htrace, Htr; reflexivity|].
    eapply Forall_impl; [exact Hreq|]. intros req ->. exact Hdata. }
  destruct res; exact Hsent.
Qed.

(** [request] as a whole. *)
Lemma hoare_request hc tr0 (method path : string) (data : pydata)
    (files : option loc) (json : pyjson) (params : option loc)
    (timeout : Q) :
  hoare (untouched hc tr0)
    (request method path data files json params timeout)
    (λ _, sent_as hc tr0 data)
    (sent_as hc tr0 data).
Proof.
  unfold request.
  eapply hoare_bind_weak;
    [apply hoare_params | apply untouched_sent_as |]. intros p.
  eapply hoare_bind_weak with (Q := λ _, untouched hc tr0);
    [| apply untouched_sent_as |].
  { intros w (Hw & o & Hown).
    pose proof (hoare_setitem hc tr0 p o "raw_json" (PInt 1) w
                  (conj Hw Hown)) as Hset.
    destruct (setitem p "raw_json" (PInt 1) w) as [[[]|e] w1];
      [exact (proj1 Hset) | exact Hset]. }
  intros [].
  eapply hoare_bind_weak;
    [apply hoare_data | apply untouched_sent_as |]. intros data'.
  eapply hoare_bind_weak with
    (Q := λ _ w, untouched hc tr0 w ∧ normalized_data hc data data');
    [| apply untouched_sent_as |].
  { intros w [Hw Hdata]. pose proof (hoare_json hc tr0 json w Hw) as Hjson.
    destruct (match json return Py pyjson with
              | JsonDict l => _ | _ => _ end w) as [[json'|e] w1];
      [split; assumption | exact Hjson]. }
  intros json'. apply hoare_request_with_retries.
Qed.
End RequestFacts.

(** ** What [request] sends and what it leaves alone *)

Section SortedFacts.
(** [sorted(d.items())]: the items of [d], in ascending order of their
    (pairwise distinct) keys. *)
Lemma sorted_items (d : gmap string pyval) :
  StronglySorted item_le (sorted (map_to_list d))
  ∧ NoDup (sorted (map_to_list d)).*1
  ∧ ∀ k v, (k, v) ∈ sorted (map_to_list d) ↔ d !! k = Some v.
Proof.
  unfold sorted. split_and!.
  - apply StronglySorted_merge_sort; apply _.
  - rewrite merge_sort_Permutation. apply NoDup_fst_map_to_list.
  - intros k v. rewrite merge_sort_Permutation. apply elem_of_map_to_list.
Qed.
End SortedFacts.

Section RequestRun.
Context {Auth : Type} `{!Authorizer Auth} `{!Requestor} `{!Runtime}.

Lemma request_sent_as (method path : string) (data : pydata)
    (files : option loc) (json : pyjson) (params : option loc)
    (timeout : Q) (w : World Auth) :
  sent_as (heap w) (trace w) data
    (request method path data files json params timeout w).2.
Proof.
  pose proof (hoare_request (heap w) (trace w) method path data files json
                params timeout w) as Hrun.
  destruct (request method path data files json params timeout w)
    as [[a|e] w']; apply Hrun; split; reflexivity.
Qed.
End RequestRun.

(** C6: when [request] returns, normally or by raising, every object of
    the caller's store, the mappings passed as [params], [data] and [json]
    among them, is what it was before the call: the keys [raw_json] and
    [api_type] are written to copies made during the call. *)
Theorem request_leaves_caller_objects_unchanged
    {Auth : Type} `{!Authorizer Auth} `{!Requestor} `{!Runtime}
    (method path : string) (data : pydata) (files : option loc)
    (json : pyjson) (params : option loc) (timeout : Q) (w : World Auth) :
  heap w ⊆ heap (request method path data files json params timeout w).2.
Proof. apply request_sent_as. Qed.

(** C7: a mapping passed as [data] is sent as the list of the items of the
    mapping with ["api_type"] set to ["json"], in ascending order of the
    keys; [{"b": 2, "a": 1}] is sent as
    [[("a", 1), ("api_type", "json"), ("b", 2)]]; any other [data] is sent
    as it is. *)
Theorem data_is_sent_sorted_by_key :
  (∀ {Auth : Type} `{!Authorizer Auth} `{!Requestor} `{!Runtime}
     (method path : string) (data : pydata) (files : option loc)
     (json : pyjson) (params : option loc) (timeout : Q) (w : World Auth),
     ∃ evs,
       trace (request method path data files json params timeout w).2
         = trace w ++ evs
       ∧ Forall
           (λ req,
              match data with
              | DataDict l =>
                  ∀ d, heap w !! l = Some (ODict d) →
                       req_data req =
                         DataItems
                           (sorted (map_to_list
                                      (<["api_type"%string := PStr "json"]> d)))
              | _ => req_data req = data
              end)
           (requests evs))
  ∧ (∀ d : gmap string pyval,
       let items :=
         sorted (map_to_list (<["api_type"%string := PStr "json"]> d)) in
       StronglySorted item_le items
       ∧ NoDup items.*1
       ∧ ∀ k v, (k, v) ∈ items ↔
                  (k = "api_type"%string ∧ v = PStr "json")
                  ∨ (k ≠ "api_type"%string ∧ d !! k = Some v))
  ∧ req_data <$>
      requests
        (trace
           (@request _ Sample.refreshing Sample.always_200 Sample.runtime
              "POST" "/api/v1/me" (DataDict 2) None JsonNone None 16
              Sample.start).2)
    = [DataItems [("a", PInt 1); ("api_type", PStr "json"); ("b", PInt 2)]%string].
Proof.
  split_and!.
  - intros Auth ? ? ? method path data files json params timeout w.
    destruct (request_sent_as method path data files json params timeout w)
      as (_ & evs & Htrace & Hreq).
    exists evs. split; [exact Htrace|].
    eapply Forall_impl; [exact Hreq|]. intros req. unfold normalized_data.
    destruct data; auto.
  - intros d items. subst items.
    destruct (sorted_items (<["api_type"%string := PStr "json"]> d))
      as (Hsorted & Hnodup & Hin).
    split_and!; [exact Hsorted | exact Hnodup |].
    intros k v. rewrite Hin, lookup_insert.
    case_decide; [subst k|]; split.
    + intros [= <-]. left. done.
    + intros [[_ ->]|[Hne _]]; [reflexivity | contradiction].
    + intros Hd. right. split; [congruence | exact Hd].
    + intros [[-> _]|[_ Hd]]; [contradiction | exact Hd].
  - vm_compute. reflexivity.
Qed.

(** ** Runs on the sample collaborators *)

(** C2, as the sentence has it, does not hold: with an authorizer that
    supports refresh and a transport that answers every call with 401, the
    third 401 is not retried. Three requests are sent, three 401 responses
    come back, the token is cleared three times, and the error of the 401
    entry is raised. *)
Lemma unauthorized_not_always_retried :
  let run :=
    @request _ Sample.refreshing Sample.always_401 Sample.runtime
      "GET" "/api/v1/me" DataNone None JsonNone None 16 Sample.start in
  @has_refresh (option string) Sample.refreshing = true
  ∧ responses (trace run.2)
    = [Sample.plain 401; Sample.plain 401; Sample.plain 401]
  ∧ length (requests (trace run.2)) = 3%nat
  ∧ clears (trace run.2) = 3%nat
  ∧ run.1 = Raise (StatusException authorization_error_class (Sample.plain 401)).
Proof. vm_compute. split_and!; reflexivity. Qed.

Lemma unauthorized_clears_then_retries_or_raises_witness :
  let w := Sample.start in
  let w1 :=
    (@attempt _ Sample.refreshing Sample.always_401 Sample.runtime
       DataNone None JsonNone "GET" 1%positive 16 Sample.me
       (FiniteRetryStrategy__init__ 3) w).2 in
  @_request_with_retries _ Sample.refreshing Sample.always_401 Sample.runtime
    DataNone None JsonNone "GET" 1%positive 16 Sample.me
    (Some (FiniteRetryStrategy__init__ 3)) w
  = @_request_with_retries _ Sample.refreshing Sample.always_401 Sample.runtime
      DataNone None JsonNone "GET" 1%positive 16 Sample.me
      (Some (consume_available_retry (FiniteRetryStrategy__init__ 3)))
      (@emit (option string) [EvClearAccessToken]
         (@set_authorizer (option string) None w1)).
Proof.
  intros w w1.
  refine (proj1 (proj1
    (@unauthorized_clears_then_retries_or_raises _ Sample.refreshing
       Sample.always_401 Sample.runtime
       DataNone None JsonNone "GET" 1%positive 16 Sample.me
       (FiniteRetryStrategy__init__ 3) w (Sample.plain 401) None w1 _ _)
    _ _)).
  - vm_compute. reflexivity.
  - reflexivity.
  - reflexivity.
  - reflexivity.
Defined.

Lemma unauthorized_without_retry_left_witness :
  let w := Sample.start in
  let w1 :=
    (@attempt _ Sample.refreshing Sample.always_401 Sample.runtime
       DataNone None JsonNone "GET" 1%positive 16 Sample.me
       (FiniteRetryStrategy__init__ 1) w).2 in
  @_request_with_retries _ Sample.refreshing Sample.always_401 Sample.runtime
    DataNone None JsonNone "GET" 1%positive 16 Sample.me
    (Some (FiniteRetryStrategy__init__ 1)) w
  = (Raise (StatusException authorization_error_class (Sample.plain 401)),
     @emit (option string) [EvClearAccessToken]
       (@set_authorizer (option string) None w1)).
Proof.
  intros w w1.
  refine (proj1
    (@unauthorized_without_retry_left _ Sample.refreshing
       Sample.always_401 Sample.runtime
       DataNone None JsonNone "GET" 1%positive 16 Sample.me
       (FiniteRetryStrategy__init__ 1) w (Sample.plain 401) None w1 _ _ _)).
  - vm_compute. reflexivity.
  - reflexivity.
  - simpl. lia.
Defined.

(** C3 at status 408: with a transport that answers every call with 408,
    [request] makes its three attempts and then fails the assertion on the
    success statuses; no [ServerError] is raised, 408 having no entry in
    [STATUS_EXCEPTIONS]. *)
Theorem request_timeout_exhausted_fails_assertion :
  let run :=
    @request _ Sample.refreshing Sample.always_408 Sample.runtime
      "GET" "/api/v1/me" DataNone None JsonNone None 16 Sample.start in
  408 ∈ RETRY_STATUSES
  ∧ STATUS_EXCEPTIONS !! 408 = None
  ∧ responses (trace run.2)
    = [Sample.plain 408; Sample.plain 408; Sample.plain 408]
  ∧ run.1 = Raise (AssertionError 408).
Proof.
  split_and!.
  - apply RETRY_STATUSES_spec. lia.
  - vm_compute. reflexivity.
  - vm_compute. reflexivity.
  - vm_compute. reflexivity.
Qed.

(** C4, as the sentence has it, does not hold: a response with status 420
    fails the assertion on the success statuses, 420 being no key of
    [STATUS_EXCEPTIONS]; [TooManyRequests] is not raised. *)
Lemma status_420_is_not_too_many_requests :
  let run :=
    @request _ Sample.refreshing Sample.always_420 Sample.runtime
      "GET" "/api/v1/me" DataNone None JsonNone None 16 Sample.start in
  responses (trace run.2) = [Sample.plain 420]
  ∧ run.1 = Raise (AssertionError 420)
  ∧ run.1 ≠ Raise (StatusException TooManyRequests (Sample.plain 420)).
Proof. vm_compute. split_and!; [reflexivity | reflexivity | discriminate]. Qed.

Lemma too_many_requests_raises_witness :
  let w := Sample.start in
  @_request_with_retries _ Sample.refreshing Sample.always_429 Sample.runtime
    DataNone None JsonNone "GET" 1%positive 16 Sample.me
    (Some (FiniteRetryStrategy__init__ 3)) w
  = (Raise (StatusException TooManyRequests (Sample.plain 429)),
     (@attempt _ Sample.refreshing Sample.always_429 Sample.runtime
        DataNone None JsonNone "GET" 1%positive 16 Sample.me
        (FiniteRetryStrategy__init__ 3) w).2).
Proof.
  intros w.
  refine (@too_many_requests_raises _ Sample.refreshing
            Sample.always_429 Sample.runtime
            DataNone None JsonNone "GET" 1%positive 16 Sample.me
            (FiniteRetryStrategy__init__ 3) w (Sample.plain 429) None _ _ _).
  - vm_compute. reflexivity.
  - reflexivity.
Defined.

(** C5, as the sentence has it, does not hold: a 200 response whose body
    has length zero and which carries no content-length header does not
    make [request] return the empty string; the body is handed to the JSON
    decoder and [BadJSON] is raised. *)
Lemma empty_body_without_content_length_raises :
  let run :=
    @request _ Sample.refreshing Sample.always_empty_chunked Sample.runtime
      "GET" "/api/v1/me" DataNone None JsonNone None 16 Sample.start in
  status_code Sample.empty_chunked = 200
  ∧ String.length (content Sample.empty_chunked) = 0%nat
  ∧ responses (trace run.2) = [Sample.empty_chunked]
  ∧ run.1 = Raise (BadJSON Sample.empty_chunked)
  ∧ run.1 ≠ Return (PStr EmptyString).
Proof.
  vm_compute. split_and!; [reflexivity.. | discriminate].
Qed.

Lemma success_returns_decoded_body_witness :
  let w := Sample.start in
  @_request_with_retries _ Sample.refreshing Sample.always_200 Sample.runtime
    DataNone None JsonNone "GET" 1%positive 16 Sample.me
    (Some (FiniteRetryStrategy__init__ 3)) w
  = (Return (PDict []),
     (@attempt _ Sample.refreshing Sample.always_200 Sample.runtime
        DataNone None JsonNone "GET" 1%positive 16 Sample.me
        (FiniteRetryStrategy__init__ 3) w).2).
Proof.
  intros w.
  refine (@success_returns_decoded_body _ Sample.refreshing
            Sample.always_200 Sample.runtime
            DataNone None JsonNone "GET" 1%positive 16 Sample.me
            (FiniteRetryStrategy__init__ 3) w (Sample.plain 200) None _ _ _).
  - vm_compute. reflexivity.
  - left. reflexivity.
Defined.

(** * Further properties *)

(** ** Retries granted by a strategy *)

(** X1: after [k] calls of [consume_available_retry], starting from any
    strategy, [should_retry_on_failure] still grants a retry exactly when
    [k] is below the initial count minus one: a strategy made with
    [retries = n] grants [n - 1] retries, and none when [n] is 1 or less. *)
Theorem retries_granted (self : FiniteRetryStrategy) (k : nat) :
  should_retry_on_failure (Nat.iter k consume_available_retry self) = true
  ↔ Z.of_nat k < _retries self - 1.
Proof. rewrite should_retry_true, retries_iter_consume. lia. Qed.

(** ** One attempt, in detail *)

Section AttemptDetails.
Context {Auth : Type} `{!Authorizer Auth} `{!Requestor} `{!Runtime}.
Implicit Types (w : World Auth) (rs : FiniteRetryStrategy) (r : Response).
Variables (data : pydata) (files : option loc) (json : pyjson)
          (method : string) (params : loc) (timeout : Q) (url : string).

Lemma requestor_request_details (req : Request) w res w1 :
  requestor_request req w = (res, w1) →
  trace w1 = trace w ++ [EvRequest req;
                         match res with
                         | Return r => EvResponse r
                         | Raise (RequestException c) => EvRequestException c
                         | Raise _ => EvRefresh
                         end]
  ∧ heap w1 = heap w ∧ draws w1 = draws w ∧ authorizer w1 = authorizer w
  ∧ calls w1 = S (calls w)
  ∧ match res with
    | Return r => transport (calls w) (heap w) req = inr r
    | Raise e => ∃ c, e = RequestException c
                      ∧ transport (calls w) (heap w) req = inl c
    end.
Proof.
  unfold requestor_request.
  destruct (transport (calls w) (heap w) req) as [c|r]; intros [= <- <-].
  - split_and!; try reflexivity. eauto.
  - split_and!; reflexivity.
Qed.

Lemma set_header_callback_details w res w1 :
  _set_header_callback w = (res, w1) →
  ∃ evs,
    trace w1 = trace w ++ evs
    ∧ heap w1 = heap w ∧ draws w1 = draws w ∧ calls w1 = calls w
    ∧ evs = (if negb (is_valid (authorizer w)) && has_refresh Auth
             then [EvRefresh] else [])
    ∧ match res with
      | Return h =>
          h = {[ "Authorization"%string := bearer (access_token (authorizer w1)) ]}
          ∧ (negb (is_valid (authorizer w)) && has_refresh Auth = false
             → authorizer w1 = authorizer w)
          ∧ (negb (is_valid (authorizer w)) && has_refresh Auth = true
             → refresh (authorizer w) = inr (authorizer w1))
      | Raise e =>
          negb (is_valid (authorizer w)) && has_refresh Auth = true
          ∧ refresh (authorizer w) = inl e
          ∧ authorizer w1 = authorizer w
      end.
Proof.
  unfold _set_header_callback, get_authorizer, authorizer_refresh,
    mbind, Py_bind, mret, Py_ret.
  destruct (negb (is_valid (authorizer w)) && has_refresh Auth) eqn:Hcond.
  - destruct (refresh (authorizer w)) as [e|a] eqn:Hrefresh; intros [= <- <-].
    + eexists. split_and!; try reflexivity.
    + eexists. split_and!; try reflexivity; intros; congruence.
  - intros [= <- <-]. exists []. rewrite app_nil_r.
    split_and!; try reflexivity; intros; congruence.
Qed.

Lemma readings_app (evs1 evs2 : list Event) :
  requests (evs1 ++ evs2) = requests evs1 ++ requests evs2
  ∧ responses (evs1 ++ evs2) = responses evs1 ++ responses evs2
  ∧ sleeps (evs1 ++ evs2) = sleeps evs1 ++ sleeps evs2
  ∧ refreshes (evs1 ++ evs2) = (refreshes evs1 + refreshes evs2)%nat.
Proof.
  unfold requests, responses, sleeps, refreshes.
  rewrite !omap_app, length_app. done.
Qed.

Lemma make_request_details rs w res w1 :
  _make_request data files json method params rs timeout url w = (res, w1) →
  ∃ evs,
    trace w1 = trace w ++ evs
    ∧ heap w1 = heap w
    ∧ draws w1 = draws w
    ∧ sleeps evs = []
    ∧ calls w1 = (calls w + length (requests evs))%nat
    ∧ (length (requests evs) ≤ 1)%nat
    ∧ Forall (sent_with (Auth := Auth) data files json method params timeout url)
        (requests evs)
    ∧ (has_refresh Auth = false → refreshes evs = 0%nat)
    ∧ match res with
      | Return (Some r, saved) =>
          saved = None ∧ responses evs = [r]
          ∧ length (requests evs) = 1%nat
          ∧ ∃ n h q, transport n h q = inr r
      | Return (None, saved) =>
          responses evs = []
          ∧ should_retry_on_failure rs = true
          ∧ ∃ c, saved = Some c ∧ isinstance c RETRY_EXCEPTIONS = true
                 ∧ ((has_refresh Auth = true ∧ requests evs = []
                     ∧ ∃ a, refresh a = inl (RequestException c))
                    ∨ (length (requests evs) = 1%nat
                       ∧ ∃ n h q, transport n h q = inl c))
      | Raise e =>
          responses evs = []
          ∧ ((has_refresh Auth = true ∧ requests evs = []
              ∧ ∃ a, refresh a = inl e)
             ∨ ∃ c, e = RequestException c
                    ∧ length (requests evs) = 1%nat
                    ∧ (∃ n h q, transport n h q = inl c)
                    ∧ (should_retry_on_failure rs = false
                       ∨ isinstance c RETRY_EXCEPTIONS = false))
      end.
Proof.
  unfold _make_request, try_except, rate_limiter_call, mbind, Py_bind,
    mret, Py_ret.
  destruct (_set_header_callback w) as [[h|e] wh] eqn:Hcb;
    apply set_header_callback_details in Hcb
      as (evs1 & Htr1 & Hheap1 & Hdraws1 & Hcalls1 & Hevs1 & Hres1).
  - match goal with
    | |- context [requestor_request ?q wh] =>
        set (req := q); destruct (requestor_request req wh) as [[r|e] wr] eqn:Hreq
    end;
      apply requestor_request_details in Hreq
        as (Htr2 & Hheap2 & Hdraws2 & _ & Hcalls2 & Hres2).
    + intros [= <- <-]. eexists. split; [rewrite Htr2, Htr1, <- app_assoc; reflexivity|].
      assert (sent_with (Auth := Auth) data files json method params timeout url req)
        as Hsent.
      { unfold sent_with, req. cbn [req_method req_url req_allow_redirects
          req_data req_files req_json req_params req_timeout req_headers].
        split_and!; try reflexivity. exists (authorizer wh).
        exact (proj1 Hres1). }
      assert (requests evs1 = [] ∧ responses evs1 = [] ∧ sleeps evs1 = []
              ∧ (has_refresh Auth = false → refreshes evs1 = 0%nat))
        as (Hq1 & Hp1 & Hs1 & Hf1).
      { subst evs1. destruct (is_valid (authorizer w)), (has_refresh Auth);
          cbn [negb andb]; split_and!; try reflexivity; discriminate. }
      destruct (readings_app evs1 [EvRequest req; EvResponse r])
        as (-> & -> & -> & ->).
      rewrite Hq1, Hp1, Hs1.
      split_and!; try reflexivity; try congruence.
      * rewrite Hcalls2, Hcalls1. cbn [requests omap list_omap app length]. lia.
      * cbn [requests omap list_omap app].
           apply Forall_cons_2; [exact Hsent | apply Forall_nil_2].
      * intros Hno. rewrite (Hf1 Hno). reflexivity.
      * eauto.
    + destruct Hres2 as (c & -> & Htransport). revert Htr2. cbn match. intros Htr2.
      assert (sent_with (Auth := Auth) data files json method params timeout url req)
        as Hsent.
      { unfold sent_with, req. cbn [req_method req_url req_allow_redirects
          req_data req_files req_json req_params req_timeout req_headers].
        split_and!; try reflexivity. exists (authorizer wh).
        exact (proj1 Hres1). }
      assert (requests evs1 = [] ∧ responses evs1 = [] ∧ sleeps evs1 = []
              ∧ (has_refresh Auth = false → refreshes evs1 = 0%nat))
        as (Hq1 & Hp1 & Hs1 & Hf1).
      { subst evs1. destruct (is_valid (authorizer w)), (has_refresh Auth);
          cbn [negb andb]; split_and!; try reflexivity; discriminate. }
      destruct (negb (should_retry_on_failure rs)
                || negb (isinstance c RETRY_EXCEPTIONS)) eqn:Hguard;
        intros [= <- <-];
        (eexists; split; [rewrite Htr2, Htr1, <- app_assoc; reflexivity|]);
        destruct (readings_app evs1 [EvRequest req; EvRequestException c])
          as (-> & -> & -> & ->);
        rewrite Hq1, Hp1, Hs1.
      * split_and!; try reflexivity; try congruence.
        -- rewrite Hcalls2, Hcalls1. cbn [requests omap list_omap app length]. lia.
        -- cbn [requests omap list_omap app].
           apply Forall_cons_2; [exact Hsent | apply Forall_nil_2].
        -- intros Hno. rewrite (Hf1 Hno). reflexivity.
        -- right. exists c. split; [reflexivity|]. split; [reflexivity|].
           split; [eauto|].
           apply orb_true_iff in Hguard as [Hg%negb_true_iff|Hg%negb_true_iff];
             [left | right]; exact Hg.
      * apply orb_false_elim in Hguard as [Hg1%negb_false_iff Hg2%negb_false_iff].
        split_and!; try reflexivity; try congruence.
        -- rewrite Hcalls2, Hcalls1. cbn [requests omap list_omap app length]. lia.
        -- cbn [requests omap list_omap app].
           apply Forall_cons_2; [exact Hsent | apply Forall_nil_2].
        -- intros Hno. rewrite (Hf1 Hno). reflexivity.
        -- exists c. split; [reflexivity|]. split; [exact Hg2|]. right.
           split; [reflexivity | eauto].
  - destruct Hres1 as (Hcond & Hrefresh & _).
    rewrite Hcond in Hevs1. subst evs1.
    assert (has_refresh Auth = true) as Hhas
      by (apply andb_prop in Hcond as [_ Hc]; exact Hc).
    destruct e as [cls0 r0|r0|st0|c| | |nm|];
      try (intros [= <- <-]; exists [EvRefresh];
           split_and!; try reflexivity; try assumption; try (cbn; lia);
           try (apply Forall_nil_2); try (intros; congruence);
           left; split_and!; [exact Hhas | reflexivity | eexists; exact Hrefresh]).
    unfold raise.
    destruct (negb (should_retry_on_failure rs)
              || negb (isinstance c RETRY_EXCEPTIONS)) eqn:Hguard;
      intros [= <- <-]; exists [EvRefresh];
      split_and!; try reflexivity; try assumption; try (cbn; lia);
      try (apply Forall_nil_2); try (intros; congruence).
    + left. split_and!; [exact Hhas | reflexivity | eexists; exact Hrefresh].
    + apply orb_false_elim in Hguard as [Hg1%negb_false_iff _]. exact Hg1.
    + apply orb_false_elim in Hguard as [_ Hg2%negb_false_iff].
      exists c. split; [reflexivity|]. split; [exact Hg2|].
      left. split_and!; [exact Hhas | reflexivity | eexists; exact Hrefresh].
Qed.

Lemma attempt_details rs w res w1 :
  attempt data files json method params timeout url rs w = (res, w1) →
  ∃ evs,
    trace w1 = trace w ++ evs
    ∧ heap w1 = heap w
    ∧ sleeps evs = from_option (λ seconds, [seconds]) []
                    (_sleep_seconds rs (random_random (draws w)))
    ∧ calls w1 = (calls w + length (requests evs))%nat
    ∧ (length (requests evs) ≤ 1)%nat
    ∧ Forall (sent_with (Auth := Auth) data files json method params timeout url)
        (requests evs)
    ∧ (has_refresh Auth = false → refreshes evs = 0%nat)
    ∧ match res with
      | Return (Some r, saved) =>
          saved = None ∧ responses evs = [r]
          ∧ length (requests evs) = 1%nat
          ∧ ∃ n h q, transport n h q = inr r
      | Return (None, saved) =>
          responses evs = []
          ∧ should_retry_on_failure rs = true
          ∧ ∃ c, saved = Some c ∧ isinstance c RETRY_EXCEPTIONS = true
                 ∧ ((has_refresh Auth = true ∧ requests evs = []
                     ∧ ∃ a, refresh a = inl (RequestException c))
                    ∨ (length (requests evs) = 1%nat
                       ∧ ∃ n h q, transport n h q = inl c))
      | Raise e =>
          responses evs = []
          ∧ ((has_refresh Auth = true ∧ requests evs = []
              ∧ ∃ a, refresh a = inl e)
             ∨ ∃ c, e = RequestException c
                    ∧ length (requests evs) = 1%nat
                    ∧ (∃ n h q, transport n h q = inl c)
                    ∧ (should_retry_on_failure rs = false
                       ∨ isinstance c RETRY_EXCEPTIONS = false))
      end.
Proof.
  unfold attempt, mbind, Py_bind.
  destruct (sleep_effects rs w) as (evs0 & -> & Hevs0).
  intros (evs & Htrace & Hheap & _ & Hsleeps & Hcalls & Hlen & Hsent & Hrefr
          & Hres)%make_request_details.
  revert Htrace Hheap Hcalls. world_simpl. intros Htrace Hheap Hcalls.
  assert (requests evs0 = [] ∧ responses evs0 = [] ∧ refreshes evs0 = 0%nat
          ∧ sleeps evs0 = from_option (λ seconds, [seconds]) []
                            (_sleep_seconds rs (random_random (draws w))))
    as (Hq0 & Hp0 & Hf0 & Hs0).
  { subst evs0. destruct (_sleep_seconds _ _); split_and!; reflexivity. }
  exists (evs0 ++ evs).
  destruct (readings_app evs0 evs) as (-> & -> & -> & ->).
  rewrite Hq0, Hp0, Hf0, Hs0, Hsleeps, app_nil_r, Htrace, app_assoc.
  split_and!; try done.
Qed.

(** The outcomes of [final_classification]. *)
Lemma final_classification_Return r (v : pyval) :
  final_classification r = Return v →
  (status_code r = codes.no_content ∧ v = PNone)
  ∨ (status_code r ∈ SUCCESS_STATUSES
     ∧ (if bool_decide (headers r !! "content-length"%string = Some "0"%string)
        then v = PStr EmptyString
        else response_json r = Some v)).
Proof.
  unfold final_classification.
  destruct (STATUS_EXCEPTIONS !! status_code r); [discriminate|].
  destruct (bool_decide (status_code r = codes.no_content)) eqn:Hnc.
  - intros [= <-]. left. split; [|reflexivity].
    exact (bool_decide_eq_true_1 _ Hnc).
  - destruct (bool_decide (status_code r ∈ SUCCESS_STATUSES)) eqn:Hs;
      cbn [negb]; [|discriminate].
    apply bool_decide_eq_true_1 in Hs. intros Hv. right. split; [exact Hs|].
    destruct (bool_decide (headers r !! _ = Some _)).
    + injection Hv as <-. reflexivity.
    + destruct (response_json r); [|discriminate]. injection Hv as <-.
      reflexivity.
Qed.

Lemma final_classification_Raise r (e : exn) :
  final_classification r = Raise e →
  (∃ cls, STATUS_EXCEPTIONS !! status_code r = Some cls
          ∧ e = StatusException cls r)
  ∨ (STATUS_EXCEPTIONS !! status_code r = None
     ∧ status_code r ≠ codes.no_content
     ∧ (status_code r ∉ SUCCESS_STATUSES)
     ∧ e = AssertionError (status_code r))
  ∨ (status_code r ∈ SUCCESS_STATUSES
     ∧ headers r !! "content-length"%string ≠ Some "0"%string
     ∧ response_json r = None
     ∧ e = BadJSON r).
Proof.
  unfold final_classification.
  destruct (STATUS_EXCEPTIONS !! status_code r) as [cls|] eqn:Hlookup.
  { intros [= <-]. left. eauto. }
  destruct (bool_decide (status_code r = codes.no_content)) eqn:Hnc;
    [discriminate|]. apply bool_decide_eq_false_1 in Hnc.
  destruct (bool_decide (status_code r ∈ SUCCESS_STATUSES)) eqn:Hs;
    cbn [negb].
  - apply bool_decide_eq_true_1 in Hs.
    destruct (bool_decide (headers r !! _ = Some _)) eqn:Hcl; [discriminate|].
    apply bool_decide_eq_false_1 in Hcl.
    destruct (response_json r); [discriminate|]. intros [= <-].
    right. right. done.
  - apply bool_decide_eq_false_1 in Hs. intros [= <-]. right. left. done.
Qed.

(** What a whole run of the loop does, in detail. *)
Lemma request_with_retries_details rs :
  ∀ w res w',
    _request_with_retries data files json method params timeout url
      (Some rs) w = (res, w') →
    ∃ evs,
      trace w' = trace w ++ evs
      ∧ calls w' = (calls w + length (requests evs))%nat
      ∧ (length (requests evs) ≤ attempts_of (Some rs))%nat
      ∧ Forall (sent_with (Auth := Auth) data files json method params timeout
                  url) (requests evs)
      ∧ (has_refresh Auth = false → refreshes evs = 0%nat)
      ∧ ((∃ r, last (responses evs) = Some r ∧ res = final_classification r)
         ∨ (∃ e, res = Raise e
                 ∧ ((∃ a, refresh a = inl e) ∨ ∃ c, e = RequestException c))).
Proof.
  induction rs as [rs IH] using retry_induction. intros w res w'.
  rewrite request_with_retries_unfold.
  destruct (attempt _ _ _ _ _ _ _ rs w) as [[[[r|] saved]|e] w1] eqn:Hattempt;
    apply attempt_details in Hattempt
      as (evs1 & Htr1 & _ & _ & Hcalls1 & Hlen1 & Hsent1 & Hrefr1 & Hres1).
  - destruct Hres1 as (-> & Hresp1 & _).
    destruct (after_response_effects r w1)
      as (_ & evs2 & Htr2 & Hevs2 & _ & Hresp2 & Hreq2).
    assert (calls (after_response r w1) = calls w1) as Hcalls2.
    { unfold after_response. destruct (bool_decide _); reflexivity. }
    assert (refreshes evs2 = 0%nat) as Hrefr2.
    { subst evs2. destruct (bool_decide _); reflexivity. }
    destruct (should_retry_on_failure rs && wants_retry r) eqn:Hretry.
    + apply andb_prop in Hretry as [Hretry _].
      intros (evs3 & Htr3 & Hcalls3 & Hlen3 & Hsent3 & Hrefr3 & Hres3)
        %(IH Hretry).
      exists (evs1 ++ evs2 ++ evs3).
      destruct (readings_app evs1 (evs2 ++ evs3)) as (-> & -> & _ & ->).
      destruct (readings_app evs2 evs3) as (-> & -> & _ & ->).
      rewrite Hreq2, Hresp2, Hresp1, Hrefr2. cbn [app].
      rewrite Htr3, Htr2, Htr1, <- !app_assoc, length_app.
      rewrite (attempts_of_consume rs Hretry).
      split_and!; [reflexivity | lia | lia | | |].
      * apply Forall_app; split; assumption.
      * intros Hno. rewrite (Hrefr1 Hno), (Hrefr3 Hno). reflexivity.
      * destruct Hres3 as [(r3 & Hlast & ->)|Hraise]; [left|right; exact Hraise].
        exists r3. split; [|reflexivity].
        change (r :: responses evs3) with ([r] ++ responses evs3).
        rewrite last_app, Hlast. reflexivity.
    + intros [= <- <-]. exists (evs1 ++ evs2).
      destruct (readings_app evs1 evs2) as (-> & -> & _ & ->).
      rewrite Hreq2, Hresp2, Hresp1, Hrefr2, app_nil_r, Htr2, Htr1,
        <- app_assoc.
      split_and!; [reflexivity | lia | unfold attempts_of; lia | assumption | |].
      * intros Hno. rewrite (Hrefr1 Hno). reflexivity.
      * left. exists r. split; reflexivity.
  - destruct Hres1 as (Hresp1 & Hretry & _).
    intros (evs3 & Htr3 & Hcalls3 & Hlen3 & Hsent3 & Hrefr3 & Hres3)
      %(IH Hretry).
    exists (evs1 ++ evs3).
    destruct (readings_app evs1 evs3) as (-> & -> & _ & ->).
    rewrite Hresp1, Htr3, Htr1, <- app_assoc, length_app.
    rewrite (attempts_of_consume rs Hretry).
    split_and!; [reflexivity | lia | lia | | |].
    + apply Forall_app; split; assumption.
    + intros Hno. rewrite (Hrefr1 Hno), (Hrefr3 Hno). reflexivity.
    + exact Hres3.
  - destruct Hres1 as (Hresp1 & Hprov).
    intros [= <- <-]. exists evs1.
    split_and!; [assumption | assumption | unfold attempts_of; lia
                 | assumption | assumption |].
    right. exists e. split; [reflexivity|].
    destruct Hprov as [(_ & _ & Hp)|(c & -> & _)];
      [left; exact Hp | right; eauto].
Qed.
End AttemptDetails.

(** ** The statements of [request] before the loop *)

Section NormaliseFacts.
Context {Auth : Type} `{!Authorizer Auth} `{!Requestor} `{!Runtime}.
Implicit Types (w : World Auth).

Lemma run_bind {A B} (m : Py (Auth := Auth) A) (f : A → Py B) w :
  (m ≫= f) w =
    match m w with
    | (Return a, w') => f a w'
    | (Raise e, w') => (Raise e, w')
    end.
Proof. reflexivity. Qed.

(** [request] is [normalise] followed by the loop. *)
Lemma request_normalise (method path : string) (data : pydata)
    (files : option loc) (json : pyjson) (params : option loc) (timeout : Q) w :
  request method path data files json params timeout w =
    match normalise data json params w with
    | (Return (params', data', json'), w0) =>
        _request_with_retries data' files json' method params' timeout
          (urljoin oauth_url path) None w0
    | (Raise e, w0) => (Raise e, w0)
    end.
Proof.
  unfold request, normalise.
  rewrite !(run_bind _ _ w).
  match goal with
  | |- context [match ?m w with _ => _ end] => destruct (m w) as [[p|e] w1]
  end; [|reflexivity].
  rewrite !(run_bind _ _ w1).
  destruct (setitem p "raw_json" (PInt 1) w1) as [[[]|e] w2]; [|reflexivity].
  rewrite !(run_bind _ _ w2).
  match goal with
  | |- context [match ?m w2 with _ => _ end] => destruct (m w2) as [[data'|e] w3]
  end; [|reflexivity].
  rewrite !(run_bind _ _ w3).
  match goal with
  | |- context [match ?m w3 with _ => _ end] => destruct (m w3) as [[json'|e] w4]
  end; reflexivity.
Qed.

(** *** The store operations, run *)

Lemma set_heap_set_heap (h1 h2 : gmap loc pyobj) w :
  set_heap h2 (set_heap h1 w) = set_heap h2 w.
Proof. reflexivity. Qed.

Lemma set_heap_same w : set_heap (heap w) w = w.
Proof. destruct w; reflexivity. Qed.

Lemma deepcopy_inv (l : loc) w res w1 :
  deepcopy l w = (res, w1) →
  (∃ o c, heap w !! l = Some o ∧ heap w !! c = None ∧ res = Return c
          ∧ w1 = set_heap (<[c := o]> (heap w)) w)
  ∨ (heap w !! l = None ∧ res = Raise TypeError ∧ w1 = w).
Proof.
  unfold deepcopy. destruct (heap w !! l) as [o|] eqn:Hl.
  - change (alloc o (heap w)) with ((alloc o (heap w)).1, (alloc o (heap w)).2).
    intros [= <- <-]. left. exists o, (alloc o (heap w)).1.
    split_and!; [reflexivity | apply alloc_fresh | reflexivity | reflexivity].
  - intros [= <- <-]. right. done.
Qed.

Lemma new_dict_inv w res w1 :
  new_dict w = (res, w1) →
  ∃ c, heap w !! c = None ∧ res = Return c
       ∧ w1 = set_heap (<[c := ODict ∅]> (heap w)) w.
Proof.
  unfold new_dict.
  change (alloc (ODict ∅) (heap w))
    with ((alloc (ODict ∅) (heap w)).1, (alloc (ODict ∅) (heap w)).2).
  intros [= <- <-]. exists (alloc (ODict ∅) (heap w)).1.
  split_and!; [apply (alloc_fresh (ODict ∅)) | reflexivity | reflexivity].
Qed.

Lemma dict_bool_inv (c : loc) w res w1 :
  dict_bool c w = (res, w1) →
  w1 = w
  ∧ ((∃ d, heap w !! c = Some (ODict d) ∧ res = Return (bool_decide (d ≠ ∅)))
     ∨ res = Raise TypeError).
Proof.
  unfold dict_bool. destruct (heap w !! c) as [[d|s]|];
    intros [= <- <-]; split; eauto.
Qed.

Lemma setitem_inv (c : loc) (key : string) (value : pyval) w res w1 :
  setitem c key value w = (res, w1) →
  (∃ d, heap w !! c = Some (ODict d) ∧ res = Return ()
        ∧ w1 = set_heap (<[c := ODict (<[key := value]> d)]> (heap w)) w)
  ∨ (res = Raise TypeError ∧ w1 = w).
Proof.
  unfold setitem. destruct (heap w !! c) as [[d|s]|];
    intros [= <- <-]; eauto 10.
Qed.

Lemma dict_items_inv (c : loc) w res w1 :
  dict_items c w = (res, w1) →
  w1 = w
  ∧ ((∃ d, heap w !! c = Some (ODict d) ∧ res = Return (map_to_list d))
     ∨ res = Raise TypeError).
Proof.
  unfold dict_items. destruct (heap w !! c) as [[d|s]|];
    intros [= <- <-]; split; eauto.
Qed.

(** [deepcopy(params) or {}], then [params["raw_json"] = 1]. *)
Lemma params_stage (params : option loc) w res w1 :
  (p ← match params return Py (Auth := Auth) loc with
       | Some l =>
           copy ← deepcopy l;
           nonempty ← dict_bool copy;
           if (nonempty : bool) then mret copy else new_dict
       | None => new_dict
       end;
   setitem p "raw_json" (PInt 1);; mret p) w = (res, w1) →
  ∃ h1, w1 = set_heap h1 w ∧ heap w ⊆ h1
    ∧ match res with
      | Return p =>
          heap w !! p = None
          ∧ match params with
            | None =>
                h1 !! p = Some (ODict {[ "raw_json"%string := PInt 1 ]})
            | Some l =>
                ∃ dp, heap w !! l = Some (ODict dp)
                      ∧ h1 !! p
                        = Some (ODict (<["raw_json"%string := PInt 1]> dp))
            end
      | Raise e => e = TypeError
      end.
Proof.
  rewrite run_bind. destruct params as [l|].
  - rewrite run_bind.
    destruct (deepcopy l w) as [rc wc] eqn:Hcopy.
    apply deepcopy_inv in Hcopy
      as [(o & c & Hl & Hc & -> & ->)|(Hl & -> & ->)].
    2:{ intros [= <- <-]. exists (heap w). rewrite set_heap_same. done. }
    rewrite run_bind.
    destruct (dict_bool c _) as [rb wb] eqn:Hbool.
    apply dict_bool_inv in Hbool as [-> Hbool].
    revert Hbool. cbn [heap set_heap]. rewrite lookup_insert_eq.
    intros [(d & Hd & ->)| ->]; [injection Hd as ->|].
    2:{ intros [= <- <-]. eexists. split; [reflexivity|].
        split; [apply insert_subseteq; exact Hc | reflexivity]. }
    destruct (bool_decide (d ≠ ∅)) eqn:Hne.
    + cbn [mret Py_ret]. rewrite run_bind.
      destruct (setitem c _ _ _) as [rs ws] eqn:Hset.
      apply setitem_inv in Hset as [(d' & Hd' & -> & ->)| (-> & ->)].
      2:{ intros [= <- <-]. eexists. split; [reflexivity|].
          split; [apply insert_subseteq; exact Hc | reflexivity]. }
      revert Hd'. cbn [heap set_heap]. rewrite lookup_insert_eq.
      intros [= <-]. intros [= <- <-]. eexists. split; [reflexivity|].
      rewrite insert_insert_eq. split_and!.
      * apply insert_subseteq; exact Hc.
      * exact Hc.
      * exists d. split; [exact Hl | apply lookup_insert_eq].
    + apply bool_decide_eq_false_1 in Hne.
      assert (d = ∅) as -> by (destruct (decide (d = ∅)); [done|contradiction]).
      destruct (new_dict _) as [rn wn] eqn:Hnew.
      apply new_dict_inv in Hnew as (c2 & Hc2 & -> & ->).
      revert Hc2. cbn [heap set_heap]. intros Hc2.
      assert (c2 ≠ c) as Hcc.
      { intros ->. rewrite lookup_insert_eq in Hc2. discriminate. }
      assert (heap w !! c2 = None) as Hc2w.
      { rewrite lookup_insert_ne in Hc2 by congruence. exact Hc2. }
      rewrite run_bind.
      destruct (setitem c2 _ _ _) as [rs ws] eqn:Hset.
      apply setitem_inv in Hset as [(d' & Hd' & -> & ->)| (-> & ->)].
      2:{ intros [= <- <-]. eexists. split; [reflexivity|].
          split; [|reflexivity]. cbn [heap set_heap].
          etrans; [apply insert_subseteq; exact Hc|].
          apply insert_subseteq. exact Hc2. }
      revert Hd'. cbn [heap set_heap]. rewrite lookup_insert_eq.
      intros [= <-]. intros [= <- <-]. eexists. split; [reflexivity|].
      rewrite insert_insert_eq. split_and!.
      * etrans; [apply insert_subseteq; exact Hc|].
        apply insert_subseteq. rewrite lookup_insert_ne by congruence.
        exact Hc2w.
      * exact Hc2w.
      * exists ∅. split; [exact Hl | apply lookup_insert_eq].
  - destruct (new_dict w) as [rn wn] eqn:Hnew.
    apply new_dict_inv in Hnew as (c & Hc & -> & ->).
    rewrite run_bind.
    destruct (setitem c _ _ _) as [rs ws] eqn:Hset.
    apply setitem_inv in Hset as [(d' & Hd' & -> & ->)| (-> & ->)].
    2:{ intros [= <- <-]. eexists. split; [reflexivity|].
        split; [apply insert_subseteq; exact Hc | reflexivity]. }
    revert Hd'. cbn [heap set_heap]. rewrite lookup_insert_eq.
    intros [= <-]. intros [= <- <-]. eexists. split; [reflexivity|].
    rewrite insert_insert_eq. split_and!.
    + apply insert_subseteq; exact Hc.
    + exact Hc.
    + apply lookup_insert_eq.
Qed.

(** The normalisation of [data]. *)
Lemma data_stage (data : pydata) w res w1 :
  match data return Py (Auth := Auth) pydata with
  | DataDict l =>
      data ← deepcopy l;
      setitem data "api_type" (PStr "json");;
      items ← dict_items data;
      mret (DataItems (sorted items))
  | _ => mret data
  end w = (res, w1) →
  ∃ h1, w1 = set_heap h1 w ∧ heap w ⊆ h1
    ∧ match res with
      | Return data' =>
          match data with
          | DataDict l =>
              ∃ d, heap w !! l = Some (ODict d)
                   ∧ data' = DataItems
                       (sorted (map_to_list
                                  (<["api_type"%string := PStr "json"]> d)))
          | _ => data' = data
          end
      | Raise e => e = TypeError
      end.
Proof.
  destruct data as [|l|items|b|fileno];
    try (intros [= <- <-]; exists (heap w); rewrite set_heap_same; done).
  rewrite run_bind.
  destruct (deepcopy l w) as [rc wc] eqn:Hcopy.
  apply deepcopy_inv in Hcopy
    as [(o & c & Hl & Hc & -> & ->)|(Hl & -> & ->)].
  2:{ intros [= <- <-]. exists (heap w). rewrite set_heap_same. done. }
  rewrite run_bind.
  destruct (setitem c _ _ _) as [rs ws] eqn:Hset.
  apply setitem_inv in Hset as [(d & Hd & -> & ->)|(-> & ->)].
  2:{ intros [= <- <-]. eexists. split; [reflexivity|].
      split; [apply insert_subseteq; exact Hc | reflexivity]. }
  revert Hd. cbn [heap set_heap]. rewrite lookup_insert_eq. intros [= ->].
  rewrite run_bind.
  destruct (dict_items c _) as [ri wi] eqn:Hitems.
  apply dict_items_inv in Hitems as [-> Hitems].
  revert Hitems. cbn [heap set_heap]. rewrite lookup_insert_eq.
  intros [(d' & Hd' & ->)| ->]; intros [= <- <-];
    (eexists; split; [reflexivity|]); rewrite insert_insert_eq;
    (split; [apply insert_subseteq; exact Hc|]); [|reflexivity].
  injection Hd' as <-. exists d. split; [exact Hl | reflexivity].
Qed.

(** The normalisation of [json]. *)
Lemma json_stage (json : pyjson) w res w1 :
  match json return Py (Auth := Auth) pyjson with
  | JsonDict l =>
      json ← deepcopy l;
      setitem json "api_type" (PStr "json");;
      mret (JsonDict json)
  | _ => mret json
  end w = (res, w1) →
  ∃ h1, w1 = set_heap h1 w ∧ heap w ⊆ h1
    ∧ match res with
      | Return json' =>
          match json with
          | JsonDict l =>
              ∃ d c, heap w !! l = Some (ODict d)
                     ∧ heap w !! c = None
                     ∧ json' = JsonDict c
                     ∧ h1 !! c
                       = Some (ODict (<["api_type"%string := PStr "json"]> d))
          | _ => json' = json
          end
      | Raise e => e = TypeError
      end.
Proof.
  destruct json as [|l|v];
    try (intros [= <- <-]; exists (heap w); rewrite set_heap_same; done).
  rewrite run_bind.
  destruct (deepcopy l w) as [rc wc] eqn:Hcopy.
  apply deepcopy_inv in Hcopy
    as [(o & c & Hl & Hc & -> & ->)|(Hl & -> & ->)].
  2:{ intros [= <- <-]. exists (heap w). rewrite set_heap_same. done. }
  rewrite run_bind.
  destruct (setitem c _ _ _) as [rs ws] eqn:Hset.
  apply setitem_inv in Hset as [(d & Hd & -> & ->)|(-> & ->)].
  2:{ intros [= <- <-]. eexists. split; [reflexivity|].
      split; [apply insert_subseteq; exact Hc | reflexivity]. }
  revert Hd. cbn [heap set_heap]. rewrite lookup_insert_eq. intros [= ->].
  intros [= <- <-]. eexists. split; [reflexivity|]. rewrite insert_insert_eq.
  split; [apply insert_subseteq; exact Hc|].
  exists d, c. split_and!; [exact Hl | exact Hc | reflexivity
                            | apply lookup_insert_eq].
Qed.

(** What [normalise] yields: the world has grown by the copies only; the
    [params] passed on is a new mapping holding [raw_json = 1] over the
    caller's entries; [data] is the sorted item list or the argument
    itself; [json] is a new mapping with [api_type = "json"] over the
    caller's entries, or the argument itself. It fails only on an
    argument that is no mapping of the store. *)
Lemma normalise_spec (data : pydata) (json : pyjson) (params : option loc)
    w res w0 :
  normalise data json params w = (res, w0) →
  store_grown w w0
  ∧ match res with
    | Return (p, data', json') =>
        heap w !! p = None
        ∧ match params with
          | None =>
              heap w0 !! p = Some (ODict {[ "raw_json"%string := PInt 1 ]})
          | Some l =>
              ∃ dp, heap w !! l = Some (ODict dp)
                    ∧ heap w0 !! p
                      = Some (ODict (<["raw_json"%string := PInt 1]> dp))
          end
        ∧ normalized_data (heap w) data data'
        ∧ match json with
          | JsonDict l =>
              ∃ c, json' = JsonDict c
                   ∧ heap w !! c = None
                   ∧ c ≠ p
                   ∧ ∀ d, heap w !! l = Some (ODict d) →
                          heap w0 !! c
                          = Some (ODict
                                    (<["api_type"%string := PStr "json"]> d))
          | _ => json' = json
          end
    | Raise e => e = TypeError
    end.
Proof.
  unfold normalise. rewrite run_bind.
  match goal with
  | |- context [match ?m w with _ => _ end] =>
      pose proof (params_stage params w) as Hparams;
      rewrite run_bind in Hparams; destruct (m w) as [[p|e] wa] eqn:Ha
  end.
  2:{ specialize (Hparams _ _ eq_refl) as (h1 & -> & Hsub & ->).
      intros [= <- <-]. split; [|reflexivity]. by split. }
  rewrite run_bind in Hparams. rewrite run_bind.
  destruct (setitem p _ _ wa) as [[[]|e] wb] eqn:Hb.
  2:{ specialize (Hparams _ _ eq_refl) as (h1 & -> & Hsub & ->).
      intros [= <- <-]. split; [|reflexivity]. by split. }
  specialize (Hparams _ _ eq_refl) as (h1 & -> & Hsub1 & Hp & Hparams).
  rewrite run_bind.
  match goal with
  | |- context [match ?m (set_heap h1 w) with _ => _ end] =>
      destruct (m (set_heap h1 w)) as [rd wd] eqn:Hd
  end.
  apply data_stage in Hd as (h2 & -> & Hsub2 & Hdata).
  revert Hsub2 Hdata. rewrite set_heap_set_heap. cbn [heap set_heap].
  intros Hsub2 Hdata.
  assert (heap w ⊆ h2) as Hsub12 by (etrans; eassumption).
  destruct rd as [data'|e].
  2:{ subst e. intros [= <- <-]. split; [|reflexivity]. by split. }
  rewrite run_bind.
  match goal with
  | |- context [match ?m (set_heap h2 w) with _ => _ end] =>
      destruct (m (set_heap h2 w)) as [rj wj] eqn:Hj
  end.
  apply json_stage in Hj as (h3 & -> & Hsub3 & Hjson).
  revert Hsub3 Hjson. rewrite set_heap_set_heap. cbn [heap set_heap].
  intros Hsub3 Hjson.
  assert (heap w ⊆ h3) as Hsub by (etrans; eassumption).
  assert (h1 ⊆ h3) as Hsub13 by (etrans; eassumption).
  destruct rj as [json'|e].
  2:{ subst e. intros [= <- <-]. split; [|reflexivity]. by split. }
  intros [= <- <-]. cbn [heap set_heap].
  assert (is_Some (h1 !! p)) as [op Hop].
  { destruct params as [l|]; [destruct Hparams as (dp & _ & Hhp)|]; eauto. }
  split; [by split|]. split_and!.
  - exact Hp.
  - destruct params as [l|].
    + destruct Hparams as (dp & Hl & Hhp). exists dp. split; [exact Hl|].
      eapply lookup_weaken; eassumption.
    + eapply lookup_weaken; eassumption.
  - unfold normalized_data.
    destruct data as [|l|items|b|fileno]; try exact Hdata.
    destruct Hdata as (d & Hl & ->). intros d' Hd'.
    eapply lookup_weaken in Hd'; [|exact Hsub1].
    rewrite Hd' in Hl. injection Hl as ->. reflexivity.
  - destruct json as [|l|v]; try exact Hjson.
    destruct Hjson as (d & c & Hl & Hc & -> & Hhc).
    exists c. split_and!.
    + reflexivity.
    + eapply lookup_weaken_None; eassumption.
    + intros ->. eapply lookup_weaken in Hop; [|exact Hsub2].
      rewrite Hop in Hc. discriminate.
    + intros d' Hd'. eapply lookup_weaken in Hd'; [|exact Hsub12].
      rewrite Hd' in Hl. injection Hl as ->. exact Hhc.
Qed.
End NormaliseFacts.

(** ** Delays before the attempts *)

Section BackoffFacts.
Context {Auth : Type} `{!Authorizer Auth} `{!Requestor} `{!Runtime}.
Implicit Types (w : World Auth) (rs : FiniteRetryStrategy) (r : Response).
Variables (data : pydata) (files : option loc) (json : pyjson)
          (method : string) (params : loc) (timeout : Q) (url : string).

Hypothesis random_in_range : ∀ n : nat, float.unit_interval (random_random n).





End BackoffFacts.

(** ** Outcomes of the loop *)

Section LoopExtras.
Context {Auth : Type} `{!Authorizer Auth} `{!Requestor} `{!Runtime}.
Implicit Types (w : World Auth) (rs : FiniteRetryStrategy) (r : Response).
Variables (data : pydata) (files : option loc) (json : pyjson)
          (method : string) (params : loc) (timeout : Q) (url : string).

(** X5: a response with status 204 ends the run at once; the value
    returned is [None]. *)
Theorem no_content_returns_None rs w r saved w1 :
  attempt data files json method params timeout url rs w
    = (Return (Some r, saved), w1) →
  status_code r = codes.no_content →
  _request_with_retries data files json method params timeout url
    (Some rs) w = (Return PNone, w1).
Proof.
  intros Hattempt Hs. unfold codes.no_content in Hs.
  rewrite (request_with_retries_terminal _ _ _ _ _ _ _ rs w r saved w1 Hattempt).
  - unfold final_classification.
    assert (STATUS_EXCEPTIONS !! status_code r = None) as ->.
    { apply STATUS_EXCEPTIONS_None. rewrite Hs, !elem_of_cons, elem_of_nil. lia. }
    rewrite bool_decide_eq_true_2 by exact Hs. reflexivity.
  - unfold codes.unauthorized. lia.
  - rewrite RETRY_STATUSES_spec. lia.
Qed.

(** X6: a response whose status is a key of [STATUS_EXCEPTIONS], other
    than 401 and the members of [RETRY_STATUSES], ends the run at once,
    whatever retries remain, by raising the exception class of the table
    built on the response. *)
Theorem mapped_status_raised_at_once rs w r saved w1
    (cls : StatusExceptionClass) :
  attempt data files json method params timeout url rs w
    = (Return (Some r, saved), w1) →
  (status_code r, cls) ∈
    [ (301, Redirect); (302, Redirect); (400, BadRequest);
      (403, authorization_error_class); (404, NotFound); (409, Conflict);
      (413, TooLarge); (414, URITooLong); (415, SpecialError);
      (429, TooManyRequests); (451, UnavailableForLegalReasons) ] →
  _request_with_retries data files json method params timeout url
    (Some rs) w = (Raise (StatusException cls r), w1).
Proof.
  intros Hattempt Hin.
  assert (status_code r ∈ [301; 302; 400; 403; 404; 409; 413; 414; 415; 429; 451])
    as Hstatus.
  { apply (list_elem_of_fmap_2 fst) in Hin. exact Hin. }
  rewrite !elem_of_cons, elem_of_nil in Hstatus.
  rewrite (request_with_retries_terminal _ _ _ _ _ _ _ rs w r saved w1 Hattempt).
  - rewrite (final_classification_mapped r cls); [reflexivity|].
    apply STATUS_EXCEPTIONS_spec.
    rewrite !elem_of_cons, elem_of_nil in Hin. rewrite !elem_of_cons.
    tauto.
  - unfold codes.unauthorized. lia.
  - rewrite RETRY_STATUSES_spec. lia.
Qed.

(** X7: a response whose status is no key of [STATUS_EXCEPTIONS], is not
    204, is none of the success statuses and is not 408 ends the run at
    once with the failure of the assertion on the success statuses. *)
Theorem unexpected_status_fails_assertion rs w r saved w1 :
  attempt data files json method params timeout url rs w
    = (Return (Some r, saved), w1) →
  STATUS_EXCEPTIONS !! status_code r = None →
  status_code r ∉ [200; 201; 202; 204; 408] →
  _request_with_retries data files json method params timeout url
    (Some rs) w = (Raise (AssertionError (status_code r)), w1).
Proof.
  intros Hattempt Hnone Hnot.
  pose proof (proj1 (STATUS_EXCEPTIONS_None _) Hnone) as Hkeys.
  rewrite !not_elem_of_cons in Hnot.
  rewrite !not_elem_of_cons in Hkeys.
  rewrite (request_with_retries_terminal _ _ _ _ _ _ _ rs w r saved w1 Hattempt).
  - rewrite final_classification_unexpected; [reflexivity | exact Hnone | |].
    + unfold codes.no_content. lia.
    + rewrite SUCCESS_STATUSES_spec. lia.
  - unfold codes.unauthorized. lia.
  - rewrite RETRY_STATUSES_spec. lia.
Qed.

(** X8: the loop returns a value only for a last response of status 204,
    the value being [None], or of status 200, 201 or 202, the value being
    the empty string when the content-length header is ["0"] and the
    decoded body otherwise. *)
Theorem normal_return_provenance rs w (v : pyval) w' :
  _request_with_retries data files json method params timeout url
    (Some rs) w = (Return v, w') →
  ∃ evs r,
    trace w' = trace w ++ evs
    ∧ last (responses evs) = Some r
    ∧ ((status_code r = 204 ∧ v = PNone)
       ∨ ((status_code r = 200 ∨ status_code r = 201 ∨ status_code r = 202)
          ∧ (if bool_decide (headers r !! "content-length"%string
                             = Some "0"%string)
             then v = PStr EmptyString
             else response_json r = Some v))).
Proof.
  intros (evs & Htr & _ & _ & _ & _ & Hres)%request_with_retries_details.
  destruct Hres as [(r & Hlast & Hfinal)|(e & Hraise & _)]; [|discriminate].
  exists evs, r. split; [exact Htr|]. split; [exact Hlast|].
  symmetry in Hfinal.
  apply final_classification_Return in Hfinal as [[Hs ->]|[Hs Hv]].
  - left. split; [exact Hs | reflexivity].
  - right. split; [|exact Hv]. apply SUCCESS_STATUSES_spec in Hs. lia.
Qed.

(** X9: an exception raised by the loop is one raised by the authorizer's
    [refresh], or a [RequestException], or comes from the last response:
    the class of [STATUS_EXCEPTIONS] for its status, the failed assertion
    for a status that is no key of the table, not 204 and no success
    status, or [BadJSON] for a success status whose body does not
    decode. *)
Theorem raised_exception_provenance rs w (e : exn) w' :
  _request_with_retries data files json method params timeout url
    (Some rs) w = (Raise e, w') →
  (∃ a, refresh a = inl e)
  ∨ (∃ c, e = RequestException c)
  ∨ ∃ evs r,
      trace w' = trace w ++ evs
      ∧ last (responses evs) = Some r
      ∧ ((∃ cls, STATUS_EXCEPTIONS !! status_code r = Some cls
                 ∧ e = StatusException cls r)
         ∨ (STATUS_EXCEPTIONS !! status_code r = None
            ∧ status_code r ≠ 204
            ∧ (status_code r ∉ SUCCESS_STATUSES)
            ∧ e = AssertionError (status_code r))
         ∨ (status_code r ∈ SUCCESS_STATUSES
            ∧ headers r !! "content-length"%string ≠ Some "0"%string
            ∧ response_json r = None
            ∧ e = BadJSON r)).
Proof.
  intros (evs & Htr & _ & _ & _ & _ & Hres)%request_with_retries_details.
  destruct Hres as [(r & Hlast & Hfinal)|(e' & [= <-] & Hprov)].
  - right. right. exists evs, r. split; [exact Htr|]. split; [exact Hlast|].
    symmetry in Hfinal. apply final_classification_Raise in Hfinal. exact Hfinal.
  - destruct Hprov as [Ha|Hc]; [left | right; left]; assumption.
Qed.

(** X4: the authorizer offering no refresh and every call of the transport
    failing with the same exception [c], the loop raises the
    [RequestException] of [c]: after as many calls as the strategy grants
    attempts when [c] is one of [RETRY_EXCEPTIONS], after a single call
    otherwise. *)
Theorem transport_failure_surfaces (c : OriginalException) rs :
  has_refresh Auth = false →
  (∀ n h q, transport n h q = inl c) →
  ∀ w,
    (_request_with_retries data files json method params timeout url
       (Some rs) w).1 = Raise (RequestException c)
    ∧ calls (_request_with_retries data files json method params timeout url
               (Some rs) w).2
      = (calls w + if isinstance c RETRY_EXCEPTIONS
                   then Z.to_nat (Z.max 1 (_retries rs)) else 1)%nat.
Proof.
  intros Hno Hfail. induction rs as [rs IH] using retry_induction. intros w.
  rewrite request_with_retries_unfold.
  destruct (attempt _ _ _ _ _ _ _ rs w) as [[[[r|] saved]|e] w1] eqn:Hattempt;
    apply attempt_details in Hattempt
      as (evs1 & Htr1 & _ & _ & Hcalls1 & _ & _ & _ & Hres1).
  - destruct Hres1 as (_ & _ & _ & n & h & q & Hr). rewrite Hfail in Hr.
    discriminate.
  - destruct Hres1 as (_ & Hretry & c' & -> & Hinst & Hprov).
    destruct Hprov as [(Hhas & _)|(Hlen & n & h & q & Hc)]; [congruence|].
    rewrite Hfail in Hc. injection Hc as <-.
    destruct (IH Hretry w1) as [Hres Hcalls]. split; [exact Hres|].
    rewrite Hcalls, Hcalls1, Hlen, Hinst, retries_consume.
    apply should_retry_true in Hretry. lia.
  - destruct Hres1 as (_ & [(Hhas & _)|(c' & -> & Hlen & (n & h & q & Hc) & Hguard)]);
      [congruence|].
    rewrite Hfail in Hc. injection Hc as <-. cbn [fst snd].
    split; [reflexivity|]. rewrite Hcalls1, Hlen.
    destruct Hguard as [Hretry%should_retry_false|Hinst].
    + destruct (isinstance c RETRY_EXCEPTIONS); lia.
    + rewrite Hinst. reflexivity.
Qed.

(** X14: the authorizer offering no refresh and every call of the transport
    answering with the same response of a status in [RETRY_STATUSES], the
    loop calls the transport as often as the strategy grants attempts and
    then raises [ServerError] on the response, or fails the assertion on
    the success statuses when the status is 408. *)
Theorem retryable_status_exhausts_retries r rs :
  has_refresh Auth = false →
  (∀ n h q, transport n h q = inr r) →
  status_code r ∈ RETRY_STATUSES →
  ∀ w,
    (_request_with_retries data files json method params timeout url
       (Some rs) w).1
    = (if bool_decide (status_code r = 408)
       then Raise (AssertionError 408)
       else Raise (StatusException ServerError r))
    ∧ calls (_request_with_retries data files json method params timeout url
               (Some rs) w).2
      = (calls w + Z.to_nat (Z.max 1 (_retries rs)))%nat.
Proof.
  intros Hno Hsame Hstatus. induction rs as [rs IH] using retry_induction.
  intros w.
  destruct (attempt data files json method params timeout url rs w)
    as [[[[r'|] saved]|e] w1] eqn:Hattempt;
    pose proof (attempt_details _ _ _ _ _ _ _ _ _ _ _ Hattempt)
      as (evs1 & Htr1 & _ & _ & Hcalls1 & _ & _ & _ & Hres1).
  - destruct Hres1 as (_ & _ & Hlen & n & h & q & Hr). rewrite Hsame in Hr.
    injection Hr as <-.
    destruct (should_retry_on_failure rs) eqn:Hretry.
    + rewrite (request_with_retries_retryable _ _ _ _ _ _ _ _ _ _ _ _
                 Hattempt Hstatus Hretry).
      destruct (IH eq_refl w1) as [-> ->]. split; [reflexivity|].
      rewrite Hcalls1, Hlen, retries_consume.
      apply should_retry_true in Hretry. lia.
    + pose proof Hretry as Hle%should_retry_false.
      destruct (bool_decide (status_code r = 408)) eqn:Hcode.
      * apply bool_decide_eq_true in Hcode.
        rewrite (request_with_retries_exhausted_request_timeout _ _ _ _ _ _ _
                   _ _ _ _ _ Hattempt Hcode Hretry).
        cbn [fst snd]. split; [reflexivity|]. rewrite Hcalls1, Hlen. lia.
      * apply bool_decide_eq_false in Hcode.
        rewrite (request_with_retries_exhausted_server_error _ _ _ _ _ _ _
                   _ _ _ _ _ Hattempt Hstatus Hcode Hretry).
        cbn [fst snd]. split; [reflexivity|]. rewrite Hcalls1, Hlen. lia.
  - destruct Hres1 as (_ & _ & c & _ & _ & [(Hhas & _)|(_ & n & h & q & Hc)]);
      [congruence|]. rewrite Hsame in Hc. discriminate.
  - destruct Hres1 as (_ & [(Hhas & _)|(c & _ & _ & (n & h & q & Hc) & _)]);
      [congruence|]. rewrite Hsame in Hc. discriminate.
Qed.
End LoopExtras.

(** ** Runs of [request] *)

Section RequestExtras.
Context {Auth : Type} `{!Authorizer Auth} `{!Requestor} `{!Runtime}.
Implicit Types (w : World Auth).
Variables (method path : string) (data : pydata) (files : option loc)
          (json : pyjson) (params : option loc) (timeout : Q).

(** A run of [request] is a run of [normalise] that raises, or one that
    returns followed by the run of the retry loop with the default
    strategy. *)
Lemma request_run w :
  (∃ w0, request method path data files json params timeout w
         = (Raise TypeError, w0)
         ∧ store_grown w w0)
  ∨ ∃ p data' json' w0,
      normalise data json params w = (Return (p, data', json'), w0)
      ∧ store_grown w w0
      ∧ request method path data files json params timeout w
        = _request_with_retries data' files json' method p timeout
            (urljoin oauth_url path)
            (Some (FiniteRetryStrategy__init__ default_retries)) w0.
Proof.
  rewrite request_normalise.
  destruct (normalise data json params w) as [[[[p data'] json']|e] w0]
    eqn:Hnorm;
    pose proof (normalise_spec _ _ _ _ _ _ Hnorm) as [Hgrown Hres].
  - right. exists p, data', json', w0. split_and!; [reflexivity | exact Hgrown |].
    apply request_with_retries_None.
  - left. exists w0. subst e. split; [reflexivity | exact Hgrown].
Qed.

(** X3: one call of [request] calls the transport once for each request
    it sends, and sends at most three, the default of [retries]. *)
Theorem request_calls_bounded w :
  ∃ evs,
    trace (request method path data files json params timeout w).2
      = trace w ++ evs
    ∧ calls (request method path data files json params timeout w).2
      = (calls w + length (requests evs))%nat
    ∧ (length (requests evs) ≤ 3)%nat.
Proof.
  destruct (request_run w)
    as [(w0 & -> & _ & _ & Hcalls & _ & Htrace)
       |(p & data' & json' & w0 & _ & (_ & _ & Hcalls & _ & Htrace) & ->)].
  - exists []. cbn [snd requests omap list_omap length].
    rewrite Htrace, Hcalls, app_nil_r. split_and!; [reflexivity | lia | lia].
  - destruct (_request_with_retries _ _ _ _ _ _ _ _ w0) as [res w'] eqn:Hrun.
    apply request_with_retries_details in Hrun
      as (evs & Htr & Hc & Hlen & _).
    exists evs. cbn [snd]. rewrite Htr, Hc, Htrace, Hcalls.
    split_and!; [reflexivity | reflexivity |].
    unfold attempts_of, default_retries in Hlen. cbn in Hlen. lia.
Qed.

(** X10: with an authorizer that has no [refresh], a call of [request]
    never refreshes, whether the token is valid or not and whatever the
    responses are. *)
Theorem request_without_refresh_never_refreshes w :
  has_refresh Auth = false →
  ∃ evs,
    trace (request method path data files json params timeout w).2
      = trace w ++ evs
    ∧ refreshes evs = 0%nat.
Proof.
  intros Hno.
  destruct (request_run w)
    as [(w0 & -> & _ & _ & _ & _ & Htrace)
       |(p & data' & json' & w0 & _ & (_ & _ & _ & _ & Htrace) & ->)].
  - exists []. cbn [snd]. rewrite Htrace, app_nil_r. split; reflexivity.
  - destruct (_request_with_retries _ _ _ _ _ _ _ _ w0) as [res w'] eqn:Hrun.
    apply request_with_retries_details in Hrun
      as (evs & Htr & _ & _ & _ & Hrefresh & _).
    exists evs. cbn [snd]. rewrite Htr, Htrace. split; [reflexivity|].
    apply Hrefresh, Hno.
Qed.

(** X11: every request sent by a call of [request] carries the method,
    the URL [urljoin(oauth_url, path)], [allow_redirects=False], the
    [files] and the [timeout] of the call, and as headers the single entry
    [Authorization] with the bearer token of the authorizer. *)
Theorem request_sends_what_was_asked w :
  ∃ evs,
    trace (request method path data files json params timeout w).2
      = trace w ++ evs
    ∧ Forall
        (λ req,
           req_method req = method
           ∧ req_url req = urljoin oauth_url path
           ∧ req_allow_redirects req = false
           ∧ req_files req = files
           ∧ req_timeout req = timeout
           ∧ ∃ a : Auth,
               req_headers req
               = {[ "Authorization"%string := bearer (access_token a) ]})
        (requests evs).
Proof.
  destruct (request_run w)
    as [(w0 & -> & _ & _ & _ & _ & Htrace)
       |(p & data' & json' & w0 & _ & (_ & _ & _ & _ & Htrace) & ->)].
  - exists []. cbn [snd]. rewrite Htrace, app_nil_r.
    split; [reflexivity | apply Forall_nil_2].
  - destruct (_request_with_retries _ _ _ _ _ _ _ _ w0) as [res w'] eqn:Hrun.
    apply request_with_retries_details in Hrun
      as (evs & Htr & _ & _ & Hsent & _).
    exists evs. cbn [snd]. rewrite Htr, Htrace. split; [reflexivity|].
    eapply Forall_impl; [exact Hsent|].
    intros req (Hm & Hu & Hr & _ & Hf & _ & _ & Ht & Hh). done.
Qed.

(** X12: the [params] of every request sent by [request] is an object made
    during the call, none of the caller's; it holds [{"raw_json": 1}] when
    no [params] was passed, and otherwise the entries of the caller's
    mapping with [raw_json] set to 1, an entry of the caller's for that key
    being overridden. *)
Theorem params_sent_as_fresh_copy w :
  ∃ evs,
    trace (request method path data files json params timeout w).2
      = trace w ++ evs
    ∧ Forall
        (λ req,
           heap w !! req_params req = None
           ∧ match params with
             | None =>
                 heap (request method path data files json params timeout w).2
                   !! req_params req
                 = Some (ODict {[ "raw_json"%string := PInt 1 ]})
             | Some l =>
                 ∃ dp,
                   heap w !! l = Some (ODict dp)
                   ∧ heap (request method path data files json params timeout
                             w).2 !! req_params req
                     = Some (ODict (<["raw_json"%string := PInt 1]> dp))
             end)
        (requests evs).
Proof.
  destruct (request_run w)
    as [(w0 & -> & _ & _ & _ & _ & Htrace)
       |(p & data' & json' & w0 & Hnorm & (_ & _ & _ & _ & Htrace) & ->)].
  - exists []. cbn [snd]. rewrite Htrace, app_nil_r.
    split; [reflexivity | apply Forall_nil_2].
  - apply normalise_spec in Hnorm as (_ & Hfresh & Hparams & _).
    destruct (_request_with_retries _ _ _ _ _ _ _ _ w0) as [res w'] eqn:Hrun.
    pose proof (request_with_retries_effects _ _ _ _ _ _ _ _ _ _ _ Hrun)
      as [Hheap _].
    apply request_with_retries_details in Hrun
      as (evs & Htr & _ & _ & Hsent & _).
    exists evs. cbn [snd]. rewrite Htr, Htrace, Hheap. split; [reflexivity|].
    eapply Forall_impl; [exact Hsent|].
    intros req (_ & _ & _ & _ & _ & _ & -> & _). split; [exact Hfresh|].
    exact Hparams.
Qed.

(** X13: a mapping passed as [json] is sent as an object made during the
    call, distinct from the one sent as [params], holding the caller's
    entries with [api_type] set to ["json"]; any other [json] is sent as it
    is. *)
Theorem json_sent_as_fresh_copy w :
  ∃ evs,
    trace (request method path data files json params timeout w).2
      = trace w ++ evs
    ∧ Forall
        (λ req,
           match json with
           | JsonDict l =>
               ∃ c, req_json req = JsonDict c
                    ∧ heap w !! c = None
                    ∧ c ≠ req_params req
                    ∧ ∀ d, heap w !! l = Some (ODict d) →
                           heap (request method path data files json params
                                   timeout w).2 !! c
                           = Some (ODict
                                     (<["api_type"%string := PStr "json"]> d))
           | _ => req_json req = json
           end)
        (requests evs).
Proof.
  destruct (request_run w)
    as [(w0 & -> & _ & _ & _ & _ & Htrace)
       |(p & data' & json' & w0 & Hnorm & (_ & _ & _ & _ & Htrace) & ->)].
  - exists []. cbn [snd]. rewrite Htrace, app_nil_r.
    split; [reflexivity | apply Forall_nil_2].
  - apply normalise_spec in Hnorm as (_ & _ & _ & _ & Hjson).
    destruct (_request_with_retries _ _ _ _ _ _ _ _ w0) as [res w'] eqn:Hrun.
    pose proof (request_with_retries_effects _ _ _ _ _ _ _ _ _ _ _ Hrun)
      as [Hheap _].
    apply request_with_retries_details in Hrun
      as (evs & Htr & _ & _ & Hsent & _).
    exists evs. cbn [snd]. rewrite Htr, Htrace, Hheap. split; [reflexivity|].
    eapply Forall_impl; [exact Hsent|].
    intros req (_ & _ & _ & _ & _ & -> & -> & _).
    destruct json as [|l|]; try exact Hjson.
Qed.

End RequestExtras.

(** ** Further runs on the sample collaborators *)


Lemma transport_failure_surfaces_witness :
  let run :=
    @_request_with_retries _ Sample.fixed
      (Sample.scripted (inl ConnectionError) []) Sample.runtime
      DataNone None JsonNone "GET" 1%positive 16 Sample.me
      (Some (FiniteRetryStrategy__init__ 3)) Sample.start in
  run.1 = Raise (RequestException ConnectionError)
  ∧ calls run.2 = 3%nat.
Proof.
  intros run.
  apply (@transport_failure_surfaces _ Sample.fixed
           (Sample.scripted (inl ConnectionError) []) Sample.runtime
           DataNone None JsonNone "GET" 1%positive 16 Sample.me
           ConnectionError (FiniteRetryStrategy__init__ 3)).
  - reflexivity.
  - intros [|[|n]] h q; reflexivity.
Defined.

Lemma retryable_status_exhausts_retries_witness :
  let run :=
    @_request_with_retries _ Sample.fixed (Sample.always 503) Sample.runtime
      DataNone None JsonNone "GET" 1%positive 16 Sample.me
      (Some (FiniteRetryStrategy__init__ 3)) Sample.start in
  run.1 = Raise (StatusException ServerError (Sample.plain 503))
  ∧ calls run.2 = 3%nat.
Proof.
  intros run.
  apply (@retryable_status_exhausts_retries _ Sample.fixed (Sample.always 503)
           Sample.runtime DataNone None JsonNone "GET" 1%positive 16 Sample.me
           (Sample.plain 503) (FiniteRetryStrategy__init__ 3)).
  - reflexivity.
  - intros [|[|n]] h q; reflexivity.
  - apply RETRY_STATUSES_spec. do 6 right. reflexivity.
Defined.

Lemma no_content_returns_None_witness :
  let w := Sample.start in
  @_request_with_retries _ Sample.refreshing (Sample.always 204) Sample.runtime
    DataNone None JsonNone "DELETE" 1%positive 16 Sample.me
    (Some (FiniteRetryStrategy__init__ 3)) w
  = (Return PNone,
     (@attempt _ Sample.refreshing (Sample.always 204) Sample.runtime
        DataNone None JsonNone "DELETE" 1%positive 16 Sample.me
        (FiniteRetryStrategy__init__ 3) w).2).
Proof.
  intros w.
  refine (@no_content_returns_None _ Sample.refreshing (Sample.always 204)
            Sample.runtime DataNone None JsonNone "DELETE" 1%positive 16
            Sample.me (FiniteRetryStrategy__init__ 3) w (Sample.plain 204)
            None _ _ _).
  - vm_compute. reflexivity.
  - reflexivity.
Defined.

Lemma mapped_status_raised_at_once_witness :
  let w := Sample.start in
  @_request_with_retries _ Sample.refreshing (Sample.always 404) Sample.runtime
    DataNone None JsonNone "GET" 1%positive 16 Sample.me
    (Some (FiniteRetryStrategy__init__ 3)) w
  = (Raise (StatusException NotFound (Sample.plain 404)),
     (@attempt _ Sample.refreshing (Sample.always 404) Sample.runtime
        DataNone None JsonNone "GET" 1%positive 16 Sample.me
        (FiniteRetryStrategy__init__ 3) w).2).
Proof.
  intros w.
  refine (@mapped_status_raised_at_once _ Sample.refreshing (Sample.always 404)
            Sample.runtime DataNone None JsonNone "GET" 1%positive 16
            Sample.me (FiniteRetryStrategy__init__ 3) w (Sample.plain 404)
            None _ NotFound _ _).
  - vm_compute. reflexivity.
  - do 4 apply list_elem_of_further. apply list_elem_of_here.
Defined.

Lemma unexpected_status_fails_assertion_witness :
  let w := Sample.start in
  @_request_with_retries _ Sample.refreshing (Sample.always 418) Sample.runtime
    DataNone None JsonNone "GET" 1%positive 16 Sample.me
    (Some (FiniteRetryStrategy__init__ 3)) w
  = (Raise (AssertionError 418),
     (@attempt _ Sample.refreshing (Sample.always 418) Sample.runtime
        DataNone None JsonNone "GET" 1%positive 16 Sample.me
        (FiniteRetryStrategy__init__ 3) w).2).
Proof.
  intros w.
  refine (@unexpected_status_fails_assertion _ Sample.refreshing
            (Sample.always 418) Sample.runtime DataNone None JsonNone "GET"
            1%positive 16 Sample.me (FiniteRetryStrategy__init__ 3) w
            (Sample.plain 418) None _ _ _ _).
  - vm_compute. reflexivity.
  - vm_compute. reflexivity.
  - apply (bool_decide_unpack _). vm_compute. exact I.
Defined.

Lemma normal_return_provenance_witness :
  let run :=
    @_request_with_retries _ Sample.refreshing Sample.always_200
      Sample.runtime DataNone None JsonNone "GET" 1%positive 16 Sample.me
      (Some (FiniteRetryStrategy__init__ 3)) Sample.start in
  ∃ evs r,
    trace run.2 = trace Sample.start ++ evs
    ∧ last (responses evs) = Some r
    ∧ ((status_code r = 204 ∧ PDict [] = PNone)
       ∨ ((status_code r = 200 ∨ status_code r = 201 ∨ status_code r = 202)
          ∧ (if bool_decide (headers r !! "content-length"%string
                             = Some "0"%string)
             then PDict [] = PStr EmptyString
             else response_json r = Some (PDict [])))).
Proof.
  intros run.
  apply (@normal_return_provenance _ Sample.refreshing Sample.always_200
           Sample.runtime DataNone None JsonNone "GET" 1%positive 16 Sample.me
           (FiniteRetryStrategy__init__ 3) Sample.start (PDict []) run.2).
  vm_compute. reflexivity.
Defined.

Lemma raised_exception_provenance_witness :
  let run :=
    @_request_with_retries _ Sample.refreshing (Sample.always 404)
      Sample.runtime DataNone None JsonNone "GET" 1%positive 16 Sample.me
      (Some (FiniteRetryStrategy__init__ 3)) Sample.start in
  let e := StatusException NotFound (Sample.plain 404) in
  (∃ a, @refresh _ Sample.refreshing a = inl e)
  ∨ (∃ c, e = RequestException c)
  ∨ ∃ evs r,
      trace run.2 = trace Sample.start ++ evs
      ∧ last (responses evs) = Some r
      ∧ ((∃ cls, STATUS_EXCEPTIONS !! status_code r = Some cls
                 ∧ e = StatusException cls r)
         ∨ (STATUS_EXCEPTIONS !! status_code r = None
            ∧ status_code r ≠ 204
            ∧ (status_code r ∉ SUCCESS_STATUSES)
            ∧ e = AssertionError (status_code r))
         ∨ (status_code r ∈ SUCCESS_STATUSES
            ∧ headers r !! "content-length"%string ≠ Some "0"%string
            ∧ response_json r = None
            ∧ e = BadJSON r)).
Proof.
  intros run e.
  apply (@raised_exception_provenance _ Sample.refreshing (Sample.always 404)
           Sample.runtime DataNone None JsonNone "GET" 1%positive 16 Sample.me
           (FiniteRetryStrategy__init__ 3) Sample.start e run.2).
  vm_compute. reflexivity.
Defined.

Lemma request_without_refresh_never_refreshes_witness :
  let run :=
    @request _ Sample.fixed Sample.always_401 Sample.runtime
      "GET" "/api/v1/me" DataNone None JsonNone None 16
      (Sample.world None) in
  ∃ evs, trace run.2 = trace (Sample.world None) ++ evs
         ∧ refreshes evs = 0%nat.
Proof.
  intros run.
  apply (@request_without_refresh_never_refreshes _ Sample.fixed
           Sample.always_401 Sample.runtime "GET" "/api/v1/me" DataNone None
           JsonNone None 16 (Sample.world None)).
  reflexivity.
Defined.
